(** * CSV SQL chatbot (app.py): the self-correcting SQL loop

    A shallow embedding of [app.py]: the Streamlit script that loads an
    uploaded CSV file into a DuckDB table, asks a language model for SQL and
    executes it, feeding the engine's error back to the model when the
    execution fails.

    Python text ([str]) is a sequence of Unicode code points; the language
    model, the clock and whatever else lies outside the process make up an
    abstract [World]; the state of the DuckDB connection is abstract too, and
    what the engine does with a call is a parameter of the development.
    Every call to the model and every execution of a candidate is recorded,
    with its outcome, in the list of events a computation emits. *)

From Stdlib Require Import String Ascii.
From stdpp Require Import base gmap list.

Local Open Scope Z_scope.

(** ** Python text *)

(** A Python [str]: a sequence of code points. *)
Abbreviation str := (list N).

(** An ASCII literal of the source as a [str]. *)
Fixpoint py (s : string) : str :=
  match s with
  | EmptyString => []
  | String a s' => N_of_ascii a :: py s'
  end.

Arguments py : simpl never.

Module Str.

(** [Py_UNICODE_ISSPACE]: the code points [str.strip()] removes. *)
Definition isspace (c : N) : bool :=
  ((9 <=? c) && (c <=? 13) || (28 <=? c) && (c <=? 32)
   || (c =? 133) || (c =? 160) || (c =? 5760)
   || (8192 <=? c) && (c <=? 8202)
   || (c =? 8232) || (c =? 8233) || (c =? 8239) || (c =? 8287)
   || (c =? 12288))%N.

Fixpoint lstrip (s : str) : str :=
  match s with
  | c :: s' => if isspace c then lstrip s' else s
  | [] => []
  end.

Definition rstrip (s : str) : str := rev (lstrip (rev s)).

(** [s.strip()] *)
Definition strip (s : str) : str := rstrip (lstrip s).

(** [sep.join(l)] *)
Fixpoint join (sep : str) (l : list str) : str :=
  match l with
  | [] => []
  | [x] => x
  | x :: l' => x ++ sep ++ join sep l'
  end.

Fixpoint startswith (s old : str) : bool :=
  match old, s with
  | [], _ => true
  | o :: old', c :: s' => (c =? o)%N && startswith s' old'
  | _ :: _, [] => false
  end.

(** [s.replace(old, new)] for a non-empty [old]: the occurrences are taken
    from the left and do not overlap; [skip] counts the characters of the
    occurrence just replaced that are still to be passed over. *)
Fixpoint replace_found (old new : str) (skip : nat) (s : str) : str :=
  match s with
  | [] => []
  | c :: s' =>
      match skip with
      | S k => replace_found old new k s'
      | O =>
          if startswith s old
          then new ++ replace_found old new (length old - 1) s'
          else c :: replace_found old new O s'
      end
  end.

(** [s.replace("", new)]: [new] before every character and at the end. *)
Fixpoint replace_interleave (new : str) (s : str) : str :=
  match s with
  | [] => new
  | c :: s' => new ++ c :: replace_interleave new s'
  end.

(** [s.replace(old, new)] *)
Definition replace (s old new : str) : str :=
  match old with
  | [] => replace_interleave new s
  | _ :: _ => replace_found old new O s
  end.

(** [x in s] for strings: [x] occurs in [s] as a contiguous run. *)
Definition contains (s x : str) : Prop :=
  exists pre post, s = pre ++ x ++ post.

End Str.

Arguments Str.replace : simpl never.
Arguments Str.strip : simpl never.
Arguments Str.join : simpl never.

(** ** Exceptions, data frames and events *)

(** A Python exception that is an instance of [Exception], which is what
    [except Exception] catches: its class name and [str(e)]. *)
Record Exception := { exc_class : str; exc_str : str }.

Section App.

(** The cells of a table, an uploaded file, everything outside the process
    (the environment, the model service, the clock), and the state of a
    DuckDB connection. *)
Context {Value File World Conn : Type}.

(** A pandas [DataFrame]: the ordered column names and the rows. *)
Record DataFrame := { df_columns : list str; df_rows : list (list Value) }.

(** [df.head()] *)
Definition head (df : DataFrame) : DataFrame :=
  {| df_columns := df_columns df; df_rows := take 5 (df_rows df) |}.

(** What the process does that can be seen from outside: calls of the
    model and executions of a candidate, each with its outcome, and the
    Streamlit widgets written to the page; then the calls the script makes
    on its way to the query block ([ConStatement] is [con.execute(sql)]
    whose result is not fetched), and the widgets of that part. *)
Inductive Event :=
| LlmInvoke (prompt : str) (out : Exception + str)
| ConExecute (sql : str) (out : Exception + DataFrame)
| ChatGroq (model : str) (temperature : Z) (out : Exception + unit)
| DuckdbConnect (out : Exception + unit)
| ConRegister (name : str) (df : DataFrame) (out : Exception + unit)
| ConStatement (sql : str) (out : Exception + unit)
| StSetPageConfig (page_title layout : str)
| StFileUploader (label : str) (types : list str)
| StTextInput (label placeholder : str)
| StButton (label : str)
| StTitle (text : str)
| StSubheader (text : str)
| StDataframe (df : DataFrame)
| StSuccess (text : str)
| StCode (body : str)
| StError (text : str)
| StInfo (text : str).

(** The state the query block runs in: the world, and the connection
    [con]. *)
Record St := { world : World; con : Conn }.

(** ** The collaborators *)

(** [load_dotenv()]: what it does to the environment. *)
Variable dotenv : World -> World.
(** [ChatGroq(model=..., temperature=...)]: the client is made, or the
    constructor raises (as it does without an API key). *)
Variable groq : str -> Z -> World -> (Exception + unit) * World.
(** [pd.read_csv] *)
Variable read_csv : File -> Exception + DataFrame.
(** [duckdb.connect()] *)
Variable db_connect : World -> (Exception + Conn) * World.
(** [con.register(name, df)] *)
Variable db_register : str -> DataFrame -> Conn -> World ->
                       (Exception + unit) * Conn * World.
(** [con.execute(sql)], the result left where it is. *)
Variable db_execute : str -> Conn -> World ->
                      (Exception + unit) * Conn * World.
(** [llm.invoke(prompt).content]: the response text, or the exception the
    call raises. *)
Variable llm : str -> World -> (Exception + str) * World.
(** [con.execute(sql).df()] on SQL text: the result, or the exception the
    engine raises, and what the statement did to the connection. *)
Variable duckdb : str -> Conn -> World ->
                  (Exception + DataFrame) * Conn * World.
(** [f"{columns}"]: the [repr] of a list of column names. *)
Variable repr_list : list str -> str.

(** ** Computations: state, exceptions and the events emitted *)

Definition Prog (S A : Type) : Type :=
  S -> (Exception + A) * S * list Event.

(** The query block and the two functions run on the world and the
    connection; the script up to [duckdb.connect()], on the world. *)
Definition M (A : Type) : Type := Prog St A.

Definition ret {S A} (a : A) : Prog S A := fun s => (inr a, s, []).

Definition raise {S A} (e : Exception) : Prog S A := fun s => (inl e, s, []).

Definition bind {S A B} (m : Prog S A) (k : A -> Prog S B) : Prog S B :=
  fun s =>
    match m s with
    | (inl e, s1, l1) => (inl e, s1, l1)
    | (inr a, s1, l1) =>
        match k a s1 with
        | (r, s2, l2) => (r, s2, l1 ++ l2)
        end
    end.

(** [try: m except Exception as e: ...]: the exception becomes a value. *)
Definition try_ {S A} (m : Prog S A) : Prog S (Exception + A) :=
  fun s => match m s with (r, s1, l1) => (inr r, s1, l1) end.

Definition emit {S} (ev : Event) : Prog S unit := fun s => (inr tt, s, [ev]).

Definition lift {S A} (r : Exception + A) : Prog S A := fun s => (r, s, []).

(** What follows [con = duckdb.connect()] runs with that connection. *)
Definition with_con {A} (c : Conn) (m : M A) : Prog World A :=
  fun w =>
    match m {| world := w; con := c |} with
    | (r, s, l) => (r, world s, l)
    end.

Notation "x <- m ;; k" := (bind m (fun x => k))
  (at level 20, m at level 99, k at level 200, only parsing).

Definition llm_invoke (prompt : str) : M str :=
  fun s =>
    match llm prompt (world s) with
    | (out, w) => (out, {| world := w; con := con s |}, [LlmInvoke prompt out])
    end.

Definition con_execute_df (sql : str) : M DataFrame :=
  fun s =>
    match duckdb sql (con s) (world s) with
    | (out, c, w) => (out, {| world := w; con := c |}, [ConExecute sql out])
    end.

(** ** The calls of the script itself (lines 11-22 and 38-40) *)

Definition load_dotenv : Prog World unit :=
  fun w => (inr tt, dotenv w, []).

Definition chat_groq (model : str) (temperature : Z) : Prog World unit :=
  fun w =>
    match groq model temperature w with
    | (out, w') => (out, w', [ChatGroq model temperature out])
    end.

Definition duckdb_connect : Prog World Conn :=
  fun w =>
    match db_connect w with
    | (inl e, w') => (inl e, w', [DuckdbConnect (inl e)])
    | (inr c, w') => (inr c, w', [DuckdbConnect (inr tt)])
    end.

Definition con_register (name : str) (df : DataFrame) : M unit :=
  fun s =>
    match db_register name df (con s) (world s) with
    | (out, c, w) => (out, {| world := w; con := c |}, [ConRegister name df out])
    end.

Definition con_execute (sql : str) : M unit :=
  fun s =>
    match db_execute sql (con s) (world s) with
    | (out, c, w) => (out, {| world := w; con := c |}, [ConStatement sql out])
    end.

(** ** The prompts (lines 48-88) *)

(** [sql_prompt.format(question=question, columns=columns)] *)
Definition sql_prompt_format (question columns : str) : str :=
  py "
You are a senior SQL expert.

Table: data
Columns: " ++ columns ++ py "

Rules:
- Output ONLY SQL
- Use correct aggregate functions
- Use GROUP BY properly
- DuckDB compatible SQL only
- No explanations

Question:
" ++ question ++ py "
".

(** [fix_prompt.format(sql=sql, error=error, columns=columns)] *)
Definition fix_prompt_format (sql error columns : str) : str :=
  py "
The following SQL caused an error:

SQL:
" ++ sql ++ py "

Error:
" ++ error ++ py "

Table columns:
" ++ columns ++ py "

Fix the SQL so that it executes correctly.
Return ONLY corrected SQL.
".

(** ** Generate SQL (lines 93-99) *)

Definition generate_sql (columns : list str) (question : str) : M str :=
  content <- llm_invoke
               (sql_prompt_format question (Str.join (py ", ") columns)) ;;
  ret (Str.replace (Str.strip content) [] []).

(** ** Execute SQL with auto-fix (lines 104-118) *)

(** [range(n)] *)
Definition range (n : Z) : list Z := seqZ 0 n.

(** The [for attempt in ...] loop; [None] is what the function returns
    when the loop ends without a [return]. *)
Fixpoint retry_loop (columns : list str) (retries : Z) (attempts : list Z)
    (sql : str) : M (option (DataFrame * str)) :=
  match attempts with
  | [] => ret None
  | attempt :: rest =>
      r <- try_ (con_execute_df sql) ;;
      match r with
      | inr df => ret (Some (df, sql))
      | inl e =>
          if attempt =? retries then raise e
          else
            content <- llm_invoke
                         (fix_prompt_format sql (exc_str e)
                            (Str.join (py ", ") columns)) ;;
            retry_loop columns retries rest
              (Str.replace (Str.strip content) [] [])
      end
  end.

Definition execute_with_retry (columns : list str) (sql : str)
    (retries : Z) : M (option (DataFrame * str)) :=
  retry_loop columns retries (range (retries + 1)) sql.

(** ** Run Query (lines 129-141) *)

(** [result, final_sql = v] *)
Definition unpack_pair (v : option (DataFrame * str)) : M (DataFrame * str) :=
  match v with
  | Some p => ret p
  | None =>
      raise {| exc_class := py "TypeError";
               exc_str := py "cannot unpack non-iterable NoneType object" |}
  end.

(** Lines 131-132: one query-answering cycle. *)
Definition cycle (columns : list str) (user_question : str)
    : M (DataFrame * str) :=
  sql <- generate_sql columns user_question ;;
  v <- execute_with_retry columns sql 2 ;;
  unpack_pair v.

(** The text of [st.error] on line 141, an f-string over [str(e)]. *)
Definition error_text (e : Exception) : str :=
  10060%N :: py " Failed to execute query: " ++ exc_str e.

(** The body of the [if st.button(...) and user_question:] block. *)
Definition run_query (columns : list str) (user_question : str) : M unit :=
  r <- try_ (p <- cycle columns user_question ;;
             _ <- emit (StSubheader (129504%N :: py " Generated SQL")) ;;
             _ <- emit (StCode (snd p)) ;;
             _ <- emit (StSubheader (128200%N :: py " Query Result")) ;;
             emit (StDataframe (fst p))) ;;
  match r with
  | inr _ => ret tt
  | inl e =>
      emit (StError (error_text e))
  end.

(** ** The script, run once per interaction

    The widgets are taken to render without raising. *)

Definition script (uploaded_file : option File) (button : bool)
    (user_question : str) : Prog World unit :=
  _ <- load_dotenv ;;
  _ <- emit (StSetPageConfig (py "SQL Chatbot") (py "wide")) ;;
  _ <- emit (StTitle (129302%N :: py " CSV SQL Chatbot (DuckDB + Groq)")) ;;
  _ <- chat_groq (py "llama-3.1-8b-instant") 0 ;;
  _ <- emit (StFileUploader (128194%N :: py " Upload a CSV file")
               [py "csv"]) ;;
  match uploaded_file with
  | Some f =>
      df <- lift (read_csv f) ;;
      _ <- emit (StSubheader (128202%N :: py " Preview of Dataset")) ;;
      _ <- emit (StDataframe (head df)) ;;
      c <- duckdb_connect ;;
      with_con c
        (_ <- con_register (py "df") df ;;
         _ <- con_execute
                (py "CREATE OR REPLACE TABLE data AS SELECT * FROM df") ;;
         let columns := df_columns df in
         _ <- emit (StSuccess (9989%N :: py " Table created with columns: "
                                 ++ repr_list columns)) ;;
         _ <- emit (StSubheader
                      (128172%N :: py " Ask a question about your data")) ;;
         _ <- emit (StTextInput (py "Example: total sales by region")
                      (py "Type your question here...")) ;;
         _ <- emit (StButton (128640%N :: py " Run Query")) ;;
         if button && negb (bool_decide (user_question = []))
         then run_query columns user_question
         else ret tt)
  | None =>
      emit (StInfo (128070%N
                    :: py " Upload a CSV file to start chatting with your data"))
  end.

(** ** Streamlit sessions *)

(** What the user has done when the script is run again: the file in the
    uploader, whether the button was pressed, the text of the question. *)
Record Interaction :=
  { uploaded_file : option File; button : bool; user_question : str }.

(** One run of the script. Nothing of the previous run's globals is kept:
    [llm], [con] and [columns] are bound anew; only the world goes on. *)
Definition rerun (i : Interaction) (w : World)
    : (Exception + unit) * World * list Event :=
  script (uploaded_file i) (button i) (user_question i) w.

Fixpoint session (ins : list Interaction) (w : World)
    : list (Interaction * list Event) :=
  match ins with
  | [] => []
  | i :: ins' =>
      match rerun i w with
      | (_, w', log) => (i, log) :: session ins' w'
      end
  end.

(** ** Reading the events *)

Definition exec_calls (log : list Event)
    : list (str * (Exception + DataFrame)) :=
  omap (fun ev => match ev with ConExecute q o => Some (q, o) | _ => None end)
       log.

Definition llm_calls (log : list Event) : list (str * (Exception + str)) :=
  omap (fun ev => match ev with LlmInvoke p o => Some (p, o) | _ => None end)
       log.

(** The statements executed without fetching a result. *)
Definition stmt_calls (log : list Event) : list (str * (Exception + unit)) :=
  omap (fun ev => match ev with ConStatement q o => Some (q, o) | _ => None end)
       log.

(** What the page shows: the widgets, without the calls behind them. *)
Definition page (log : list Event) : list Event :=
  omap (fun ev => match ev with
                  | LlmInvoke _ _ | ConExecute _ _
                  | ChatGroq _ _ _ | DuckdbConnect _
                  | ConRegister _ _ _ | ConStatement _ _ => None
                  | _ => Some ev
                  end) log.

(** The runs of the retry loop from attempt [attempt] on, by their events and
    their outcome. *)
Inductive loop_run (columns : list str) (retries : Z)
    : Z -> str -> list Event -> Exception + option (DataFrame * str) -> Prop :=
| run_succeeded attempt sql df :
    loop_run columns retries attempt sql
      [ConExecute sql (inr df)] (inr (Some (df, sql)))
| run_exhausted sql e :
    loop_run columns retries retries sql [ConExecute sql (inl e)] (inl e)
| run_fix_raised attempt sql e e' :
    attempt <> retries ->
    loop_run columns retries attempt sql
      [ConExecute sql (inl e);
       LlmInvoke (fix_prompt_format sql (exc_str e)
                    (Str.join (py ", ") columns)) (inl e')]
      (inl e')
| run_fixed attempt sql e content log r :
    attempt <> retries ->
    loop_run columns retries (attempt + 1) (Str.strip content) log r ->
    loop_run columns retries attempt sql
      (ConExecute sql (inl e)
       :: LlmInvoke (fix_prompt_format sql (exc_str e)
                       (Str.join (py ", ") columns)) (inr content)
       :: log)
      r.

End App.

Arguments sql_prompt_format : simpl never.
Arguments fix_prompt_format : simpl never.
Arguments error_text : simpl never.
Arguments run_query : simpl never.
Arguments cycle : simpl never.

(** ** A scripted world

    The model and the engine answer from two lists prepared in advance, one
    answer per call, whatever they are asked. *)
Module Mock.

Definition World : Type :=
  list (Exception + str) * list (Exception + @DataFrame Z).

Definition timeout : Exception :=
  {| exc_class := py "TimeoutError"; exc_str := py "no answer" |}.

Definition llm (prompt : str) (w : World) : (Exception + str) * World :=
  match fst w with
  | o :: rest => (o, (rest, snd w))
  | [] => (inl timeout, w)
  end.

(** The state of the scripted connection: the frames registered, by name. *)
Abbreviation Conn := (gmap str (@DataFrame Z)).

Definition duckdb (sql : str) (c : gmap str (@DataFrame Z)) (w : World)
    : (Exception + @DataFrame Z) * gmap str (@DataFrame Z) * World :=
  match snd w with
  | o :: rest => (o, c, (fst w, rest))
  | [] => (inl timeout, c, w)
  end.

Definition read_csv (f : @DataFrame Z) : Exception + @DataFrame Z := inr f.

Definition dotenv (w : World) : World := w.

Definition groq (model : str) (temperature : Z) (w : World)
    : (Exception + unit) * World := (inr tt, w).

Definition db_connect (w : World) : (Exception + Conn) * World := (inr ∅, w).

Definition db_register (name : str) (df : @DataFrame Z) (c : Conn) (w : World)
    : (Exception + unit) * Conn * World := (inr tt, <[name := df]> c, w).

Definition db_execute (sql : str) (c : Conn) (w : World)
    : (Exception + unit) * Conn * World := (inr tt, c, w).

Definition repr_list (l : list str) : str :=
  py "[" ++ Str.join (py ", ") l ++ py "]".

Definition start (w : World) : @St World Conn := {| world := w; con := ∅ |}.

(** The table of the scenario: columns [region, sales], three rows. *)
Definition sales : @DataFrame Z :=
  {| df_columns := [py "region"; py "sales"];
     df_rows := [[65; 10]; [66; 20]; [65; 5]] |}.

Definition totals : @DataFrame Z :=
  {| df_columns := [py "region"; py "sales"];
     df_rows := [[65; 15]; [66; 20]] |}.

Definition binder_error (msg : string) : Exception :=
  {| exc_class := py "BinderException"; exc_str := py msg |}.

(** The scenario: the first candidate names a column that does not exist. *)
Definition columns : list str := df_columns sales.

Definition q_bad : str :=
  py "SELECT regoin, SUM(sales) AS sales FROM data GROUP BY regoin".

Definition q_good : str :=
  py "SELECT region, SUM(sales) AS sales FROM data GROUP BY region".

Definition q_other : str := py "SELECT region FROM data WHERE sales = 'A'".

Definition unknown_column : Exception :=
  binder_error "Binder Error: Referenced column regoin not found in FROM clause!".

Definition conversion_error : Exception :=
  {| exc_class := py "ConversionException";
     exc_str := py "Conversion Error: Could not convert string 'A' to INT64" |}.

Definition question : str := py "total sales by region".

(** The engine rejects the first candidate and accepts the second. *)
Definition fixed_once : World :=
  ([inr (py "  " ++ q_good ++ [10%N])], [inl unknown_column; inr totals]).

(** The engine rejects three candidates; the model answers the two fixes
    with [a1] and [a2]. *)
Definition never_fixed (a1 a2 : str) : World :=
  ([inr a1; inr a2],
   [inl unknown_column; inl unknown_column; inl conversion_error]).

(** The same two worlds, with the answer to the generation prompt first. *)
Definition asked (answer : Exception + str) (w : World) : World :=
  (answer :: fst w, snd w).

(** A second upload, with other columns. *)
Definition stock : @DataFrame Z :=
  {| df_columns := [py "item"; py "qty"; py "price"];
     df_rows := [[1; 2; 3]] |}.

Definition two_uploads : list (@Interaction (@DataFrame Z)) :=
  [ {| uploaded_file := Some sales; button := true;
       user_question := question |};
    {| uploaded_file := Some stock; button := true;
       user_question := py "how many items" |} ].

End Mock.

(** * Properties *)

(** ** Python text *)

Example strip_example :
  Str.strip (py "  SELECT 1
 ") = py "SELECT 1".
Proof. reflexivity. Qed.

Example replace_example :
  Str.replace (py "a--b--c---") (py "--") (py "+") = py "a+b+c+-".
Proof. reflexivity. Qed.

Example join_example :
  Str.join (py ", ") [py "region"; py "sales"] = py "region, sales".
Proof. reflexivity. Qed.


Lemma replace_interleave_nil (s : str) : Str.replace_interleave [] s = s.
Proof. induction s as [|c s IH]; simpl; [reflexivity | now rewrite IH]. Qed.

Lemma replace_nil_nil (s : str) : Str.replace s [] [] = s.
Proof. apply replace_interleave_nil. Qed.

Lemma lstrip_split (s : str) :
  exists a, s = a ++ Str.lstrip s /\ forallb Str.isspace a = true.
Proof.
  induction s as [|c s [a [Hs Ha]]]; simpl.
  - now exists [].
  - destruct (Str.isspace c) eqn:Hc.
    + exists (c :: a). simpl. rewrite Hc, Ha. split; [now f_equal | reflexivity].
    + now exists [].
Qed.

Lemma lstrip_head (s : str) (c : N) (t : str) :
  Str.lstrip s = c :: t -> Str.isspace c = false.
Proof.
  induction s as [|d s IH]; simpl; [discriminate|].
  destruct (Str.isspace d) eqn:Hd; [exact IH|].
  intros [= -> _]. exact Hd.
Qed.

(** What [strip] does: it removes a run of whitespace at each end, and what
    is left neither starts nor ends with whitespace. *)
Lemma strip_spec (s : str) :
  exists a b,
    s = a ++ Str.strip s ++ b
    /\ forallb Str.isspace a = true /\ forallb Str.isspace b = true
    /\ (forall c t, Str.strip s = c :: t -> Str.isspace c = false)
    /\ (forall c t, Str.strip s = t ++ [c] -> Str.isspace c = false).
Proof.
  destruct (lstrip_split s) as [a [Hs Ha]].
  destruct (lstrip_split (rev (Str.lstrip s))) as [b [Hr Hb]].
  assert (Hl : Str.lstrip s = Str.strip s ++ rev b).
  { unfold Str.strip, Str.rstrip.
    rewrite <- (rev_involutive (Str.lstrip s)) at 1.
    rewrite Hr at 1. now rewrite rev_app_distr. }
  exists a, (rev b). repeat split.
  - now rewrite <- Hl.
  - exact Ha.
  - rewrite forallb_forall in *. intros x Hx. apply Hb. now apply in_rev.
  - intros c t Hst. rewrite Hst in Hl. simpl in Hl.
    eapply lstrip_head. exact Hl.
  - intros c t Hst. unfold Str.strip, Str.rstrip in Hst.
    apply (f_equal (@rev N)) in Hst.
    rewrite rev_involutive, rev_app_distr in Hst. simpl in Hst.
    eapply lstrip_head. exact Hst.
Qed.

(** ** The retry loop *)

Section Properties.

Context {Value File World Conn : Type}.
Variable dotenv : World -> World.
Variable groq : str -> Z -> World -> (Exception + unit) * World.
Variable read_csv : File -> Exception + @DataFrame Value.
Variable db_connect : World -> (Exception + Conn) * World.
Variable db_register : str -> @DataFrame Value -> Conn -> World ->
                       (Exception + unit) * Conn * World.
Variable db_execute : str -> Conn -> World ->
                      (Exception + unit) * Conn * World.
Variable llm : str -> World -> (Exception + str) * World.
Variable duckdb : str -> Conn -> World ->
                  (Exception + @DataFrame Value) * Conn * World.
Variable repr_list : list str -> str.

Lemma retry_loop_run (columns : list str) (retries : Z) (n : nat) :
  forall attempt sql (s : @St World Conn) r s' log,
    attempt + Z.of_nat n = retries ->
    retry_loop llm duckdb columns retries (seqZ attempt (Z.of_nat (S n))) sql s
      = (r, s', log) ->
    loop_run columns retries attempt sql log r.
Proof.
  induction n as [|n IH]; intros attempt sql s r s' log Hn Hrun;
    rewrite seqZ_cons in Hrun by lia; simpl in Hrun;
    unfold bind, try_, con_execute_df in Hrun;
    destruct (duckdb sql (con s) (world s)) as [[[e|df] c] w] eqn:Hex;
    simpl in Hrun.
  - assert (attempt = retries) as -> by lia.
    rewrite Z.eqb_refl in Hrun. injection Hrun as <- _ <-. constructor.
  - injection Hrun as <- _ <-. constructor.
  - destruct (Z.eqb_spec attempt retries) as [|Hne]; [lia|].
    unfold bind, llm_invoke in Hrun. simpl in Hrun.
    destruct (llm _ w) as [[e'|content] w'] eqn:Hllm.
    + injection Hrun as <- _ <-. now constructor.
    + rewrite replace_nil_nil in Hrun.
      replace (Z.pred (Z.of_nat (S (S n)))) with (Z.of_nat (S n)) in Hrun
        by lia.
      destruct (retry_loop _ _ _ _ _ _ _) as [[r2 s2] l2] eqn:Hrec.
      injection Hrun as <- _ <-. simpl.
      constructor; [exact Hne|].
      eapply IH; [|exact Hrec]. lia.
  - injection Hrun as <- _ <-. constructor.
Qed.

Lemma execute_with_retry_run (columns : list str) (sql : str) (retries : Z)
    (s : @St World Conn) r s' log :
  0 <= retries ->
  execute_with_retry llm duckdb columns sql retries s = (r, s', log) ->
  loop_run columns retries 0 sql log r.
Proof.
  intros Hr Hrun. unfold execute_with_retry, range in Hrun.
  replace (retries + 1) with (Z.of_nat (S (Z.to_nat retries))) in Hrun by lia.
  eapply retry_loop_run; [|exact Hrun]. lia.
Qed.

(** Every run starts by executing the candidate it was given. *)
Lemma loop_run_head (columns : list str) (retries attempt : Z) (sql : str)
    (log : list (@Event Value)) r :
  loop_run columns retries attempt sql log r ->
  exists out rest, log = ConExecute sql out :: rest.
Proof. destruct 1; eauto. Qed.

Lemma loop_run_counts (columns : list str) (retries attempt : Z) (sql : str)
    (log : list (@Event Value)) r :
  loop_run columns retries attempt sql log r ->
  attempt <= retries ->
  Z.of_nat (length (exec_calls log)) <= retries - attempt + 1
  /\ Z.of_nat (length (llm_calls log)) <= retries - attempt
  /\ (length (llm_calls log) < length (exec_calls log)
      \/ exists e, r = inl e)%nat.
Proof.
  induction 1 as [a0 q0 d0|q0 x0|a0 q0 x0 x1 Hne
                  |attempt sql e0 content log r Hne Hrun IH];
    intros Hle; simpl.
  - split; [lia|]. split; [lia|]. left. lia.
  - split; [lia|]. split; [lia|]. left. lia.
  - split; [lia|]. split; [lia|]. right. eauto.
  - destruct IH as (He & Hl & Hlt); [lia|].
    split; [lia|]. split; [lia|]. destruct Hlt; [left; lia | now right].
Qed.

(** A run in which every attempt the bound allows has failed ends in the
    exception of the last attempt, which is also the last event. *)
Lemma loop_run_all_failed (columns : list str) (retries attempt : Z)
    (sql : str) (log : list (@Event Value)) r :
  loop_run columns retries attempt sql log r ->
  attempt <= retries ->
  forall calls q e,
    exec_calls log = calls ++ [(q, inl e)] ->
    Z.of_nat (length calls) = retries - attempt ->
    r = inl e /\ exists pre, log = pre ++ [ConExecute q (inl e)].
Proof.
  induction 1 as [a0 q0 d0|q0 x0|a0 q0 x0 x1 Hne
                  |attempt sql e0 content log r Hne Hrun IH];
    intros Hle calls q e Hcalls Hlen; simpl in Hcalls.
  - destruct calls as [|? [|]]; simplify_eq/=.
  - destruct calls as [|? [|]]; simplify_eq/=. split; [done|]. now exists [].
  - destruct calls as [|? [|]]; simplify_eq/=. lia.
  - destruct calls as [|c calls]; simpl in *.
    + destruct (loop_run_head _ _ _ _ _ _ Hrun) as (o & rest & ->).
      simplify_eq/=.
    + injection Hcalls as <- Hcalls.
      destruct (IH ltac:(lia) calls q e Hcalls ltac:(lia)) as [-> [pre ->]].
      split; [done|]. now exists (ConExecute sql (inl e0) :: LlmInvoke
        (fix_prompt_format sql (exc_str e0) (Str.join (py ", ") columns))
        (inr content) :: pre).
Qed.

(** After a failed attempt that is not the last one the bound allows comes
    the call of the model with the fix prompt, and nothing else before the
    next attempt. *)
Lemma loop_run_fix_follows (columns : list str) (retries attempt : Z)
    (sql : str) (log : list (@Event Value)) r :
  loop_run columns retries attempt sql log r ->
  attempt <= retries ->
  forall pre q e post,
    log = pre ++ ConExecute q (inl e) :: post ->
    attempt + Z.of_nat (length (exec_calls pre)) < retries ->
    exists out rest,
      post = LlmInvoke (fix_prompt_format q (exc_str e)
                          (Str.join (py ", ") columns)) out :: rest
      /\ match out with
         | inl e' => rest = [] /\ r = inl e'
         | inr content =>
             exists out' rest',
               rest = ConExecute (Str.strip content) out' :: rest'
         end.
Proof.
  induction 1 as [a0 q0 d0|q0 x0|a0 q0 x0 x1 Hne
                  |attempt sql e0 content log r Hne Hrun IH];
    intros Hle pre q e post Hlog Hk.
  - destruct pre as [|? [|]]; simplify_eq/=.
  - destruct pre as [|? [|]]; simplify_eq/=; lia.
  - destruct pre as [|? [|? [|]]]; simplify_eq/=. now exists (inl x1), [].
  - destruct pre as [|? [|? pre]]; simplify_eq/=.
    + destruct (loop_run_head _ _ _ _ _ _ Hrun) as (o & rest & ->).
      exists (inr content), (ConExecute (Str.strip content) o :: rest).
      split; [done|]. eauto.
    + apply (IH ltac:(lia) pre q e post eq_refl). lia.
Qed.

(** A call of the model that raises is the last event of the run, and the
    run ends in that exception. *)
Lemma loop_run_llm_raised (columns : list str) (retries attempt : Z)
    (sql : str) (log : list (@Event Value)) r :
  loop_run columns retries attempt sql log r ->
  forall pre p e post,
    log = pre ++ LlmInvoke p (inl e) :: post -> post = [] /\ r = inl e.
Proof.
  induction 1 as [a0 q0 d0|q0 x0|a0 q0 x0 x1 Hne
                  |attempt sql e0 content log r Hne Hrun IH];
    intros pre p e post Hlog.
  - destruct pre as [|? [|]]; simplify_eq/=.
  - destruct pre as [|? [|]]; simplify_eq/=.
  - destruct pre as [|? [|? [|]]]; simplify_eq/=. done.
  - destruct pre as [|? [|? pre]]; simplify_eq/=. eauto.
Qed.

(** Every prompt of the loop is the fix prompt, filled with the joined
    column list. *)
Lemma loop_run_prompts (columns : list str) (retries attempt : Z)
    (sql : str) (log : list (@Event Value)) r :
  loop_run columns retries attempt sql log r ->
  forall p out, In (LlmInvoke p out) log ->
    exists q e, p = fix_prompt_format q e (Str.join (py ", ") columns).
Proof.
  induction 1 as [a0 q0 d0|q0 x0|a0 q0 x0 x1 Hne
                  |attempt sql e0 content log r Hne Hrun IH];
    intros p out Hin; simpl in Hin.
  - destruct Hin as [|[]]; simplify_eq.
  - destruct Hin as [|[]]; simplify_eq.
  - destruct Hin as [|[|[]]]; simplify_eq. eauto.
  - destruct Hin as [|[|Hin]]; simplify_eq; eauto.
Qed.

(** A run that returns, returns the rows of its last event together with the
    candidate executed there; every attempt before it failed, and the
    candidate is the one given or the stripped answer to the last fix. *)
Lemma loop_run_returns (columns : list str) (retries attempt : Z)
    (sql : str) (log : list (@Event Value)) v :
  loop_run columns retries attempt sql log (inr v) ->
  exists df q pre,
    v = Some (df, q)
    /\ log = pre ++ [ConExecute q (inr df)]
    /\ (forall c, In c (exec_calls pre) -> exists e, snd c = inl e)
    /\ (pre = [] /\ q = sql
        \/ exists pre' p content,
             pre = pre' ++ [LlmInvoke p (inr content)]
             /\ q = Str.strip content).
Proof.
  remember (inr v) as r eqn:Hr. intros Hrun. revert v Hr.
  induction Hrun as [attempt sql df|q0 x0|a0 q0 x0 x1 Hne
                     |attempt sql e0 content log r Hne Hrun IH];
    intros v Hr; simplify_eq.
  - exists df, sql, []. repeat split; [intros c []|now left].
  - destruct (IH v eq_refl) as (df & q & pre & -> & -> & Hfail & Hq).
    exists df, q,
      (ConExecute sql (inl e0) :: LlmInvoke
        (fix_prompt_format sql (exc_str e0) (Str.join (py ", ") columns))
        (inr content) :: pre).
    repeat split.
    + intros c [<-|Hc]; [simpl; eauto | now apply Hfail].
    + right. destruct Hq as [[-> ->]|(pre' & p & content' & -> & ->)].
      * now exists [ConExecute sql (inl e0)], (fix_prompt_format sql
          (exc_str e0) (Str.join (py ", ") columns)), content.
      * now exists (ConExecute sql (inl e0) :: LlmInvoke
          (fix_prompt_format sql (exc_str e0) (Str.join (py ", ") columns))
          (inr content) :: pre'), p, content'.
Qed.

Lemma contains_here (x post : str) : Str.contains (x ++ post) x.
Proof. now exists [], post. Qed.

Lemma contains_app_r (x s pre : str) :
  Str.contains s x -> Str.contains (pre ++ s) x.
Proof.
  intros (a & b & ->). exists (pre ++ a), b. now rewrite <- app_assoc.
Qed.

Lemma fix_prompt_contains (q e c : str) :
  Str.contains (fix_prompt_format q e c) q
  /\ Str.contains (fix_prompt_format q e c) e
  /\ Str.contains (fix_prompt_format q e c) c.
Proof.
  unfold fix_prompt_format. repeat split.
  - apply contains_app_r, contains_here.
  - do 3 apply contains_app_r. apply contains_here.
  - do 5 apply contains_app_r. apply contains_here.
Qed.

Lemma sql_prompt_contains (q c : str) :
  Str.contains (sql_prompt_format q c) c.
Proof.
  unfold sql_prompt_format. apply contains_app_r, contains_here.
Qed.

(** With a negative bound the loop has no iteration: the call returns [None]
    and does nothing. *)
Lemma execute_with_retry_negative (columns : list str) (sql : str)
    (retries : Z) (s : @St World Conn) :
  retries < 0 ->
  execute_with_retry llm duckdb columns sql retries s = (inr None, s, []).
Proof.
  intros Hr. unfold execute_with_retry, range, seqZ.
  now replace (Z.to_nat (retries + 1)) with 0%nat by lia.
Qed.

(** C1: with the default bound ([retries = 2]) a run of
    [execute_with_retry], from any candidate and in any world, executes at
    most three candidates; when three executions have failed, the run ends
    by raising the exception of the third one, and that failed execution is
    the last thing the run does (there is no fourth). *)
Theorem default_bound_three_attempts (columns : list str) (sql : str)
    (s : @St World Conn) r s' log :
  execute_with_retry llm duckdb columns sql 2 s = (r, s', log) ->
  (length (exec_calls log) <= 3)%nat
  /\ forall q1 e1 q2 e2 q3 e3,
       exec_calls log = [(q1, inl e1); (q2, inl e2); (q3, inl e3)] ->
       r = inl e3 /\ last log = Some (ConExecute q3 (inl e3)).
Proof.
  intros Hrun. apply execute_with_retry_run in Hrun; [|lia].
  split.
  - pose proof (loop_run_counts _ _ _ _ _ _ Hrun). lia.
  - intros q1 e1 q2 e2 q3 e3 Hcalls.
    destruct (loop_run_all_failed _ _ _ _ _ _ Hrun ltac:(lia)
                [(q1, inl e1); (q2, inl e2)] q3 e3 Hcalls eq_refl)
      as [-> [pre ->]].
    split; [reflexivity | apply last_snoc].
Qed.

(** C2: when attempt k fails and k is at most [retries], the next event is
    one call of the model, with the fix prompt built from the candidate that
    failed, [str(e)] of the engine's exception and the joined column list,
    each of which the prompt contains as it is; after that call comes
    attempt k+1 on the stripped answer, or, if the call raised, nothing. *)
Theorem fix_call_follows_failed_attempt (columns : list str) (sql : str)
    (retries : Z) (s : @St World Conn) r s' log pre q e post :
  0 <= retries ->
  execute_with_retry llm duckdb columns sql retries s = (r, s', log) ->
  log = pre ++ ConExecute q (inl e) :: post ->
  Z.of_nat (length (exec_calls pre)) + 1 <= retries ->
  exists out rest,
    let prompt :=
      fix_prompt_format q (exc_str e) (Str.join (py ", ") columns) in
    post = LlmInvoke prompt out :: rest
    /\ Str.contains prompt q
    /\ Str.contains prompt (exc_str e)
    /\ Str.contains prompt (Str.join (py ", ") columns)
    /\ match out with
       | inl e' => rest = [] /\ r = inl e'
       | inr content =>
           exists out' rest',
             rest = ConExecute (Str.strip content) out' :: rest'
       end.
Proof.
  intros Hr Hrun Hlog Hk. apply execute_with_retry_run in Hrun; [|lia].
  destruct (loop_run_fix_follows _ _ _ _ _ _ Hrun Hr pre q e post Hlog
              ltac:(lia)) as (out & rest & Hpost & Hout).
  exists out, rest. cbv zeta.
  destruct (fix_prompt_contains q (exc_str e) (Str.join (py ", ") columns))
    as (? & ? & ?).
  repeat split; assumption.
Qed.

(** C5: a run of [execute_with_retry] that returns, returns the rows
    produced by its last event together with the very candidate executed
    there; every earlier execution failed; and that candidate is the
    argument when nothing was fixed, the stripped answer to the last fix
    otherwise. *)
Theorem success_returns_executed_candidate (columns : list str) (sql : str)
    (retries : Z) (s : @St World Conn) v s' log :
  0 <= retries ->
  execute_with_retry llm duckdb columns sql retries s = (inr v, s', log) ->
  exists df q pre,
    v = Some (df, q)
    /\ log = pre ++ [ConExecute q (inr df)]
    /\ (forall c, In c (exec_calls pre) -> exists e, snd c = inl e)
    /\ (pre = [] /\ q = sql
        \/ exists pre' p content,
             pre = pre' ++ [LlmInvoke p (inr content)]
             /\ q = Str.strip content).
Proof.
  intros Hr Hrun. apply execute_with_retry_run in Hrun; [|lia].
  eapply loop_run_returns. exact Hrun.
Qed.

(** C10: for every [retries >= 0] the call returns or raises after at most
    [retries + 1] executions and at most [retries] calls of the model; with
    [retries = 0] a failing execution is raised at once, and the model is
    not called. *)
Theorem execute_with_retry_bounded (columns : list str) (sql : str)
    (retries : Z) (s : @St World Conn) :
  0 <= retries ->
  exists r s' log,
    execute_with_retry llm duckdb columns sql retries s = (r, s', log)
    /\ Z.of_nat (length (exec_calls log)) <= retries + 1
    /\ Z.of_nat (length (llm_calls log)) <= retries
    /\ (retries = 0 ->
        llm_calls log = []
        /\ forall e c w,
             duckdb sql (con s) (world s) = (inl e, c, w) ->
             r = inl e /\ log = [ConExecute sql (inl e)]).
Proof.
  intros Hr.
  destruct (execute_with_retry llm duckdb columns sql retries s)
    as [[r s'] log] eqn:Hrun.
  exists r, s', log. split; [reflexivity|].
  pose proof (execute_with_retry_run _ _ _ _ _ _ _ Hr Hrun) as Hloop.
  destruct (loop_run_counts _ _ _ _ _ _ Hloop Hr) as (He & Hl & _).
  split; [lia|]. split; [lia|].
  intros ->. split.
  - destruct (llm_calls log); [reflexivity | simpl in Hl; lia].
  - intros e c w Hex. unfold execute_with_retry in Hrun. simpl in Hrun.
    unfold bind, try_, con_execute_df in Hrun. rewrite Hex in Hrun.
    simpl in Hrun. now injection Hrun as <- _ <-.
Qed.

(** ** One query-answering cycle *)

(** A cycle is the generation call, then, if it answered, a run of the loop
    on the stripped answer. *)
Lemma cycle_inv (columns : list str) (question : str)
    (s : @St World Conn) r s' log :
  cycle llm duckdb columns question s = (r, s', log) ->
  let prompt := sql_prompt_format question (Str.join (py ", ") columns) in
  (exists e w,
     llm prompt (world s) = (inl e, w)
     /\ log = [LlmInvoke prompt (inl e)] /\ r = inl e
     /\ s' = {| world := w; con := con s |})
  \/ (exists content w log',
        llm prompt (world s) = (inr content, w)
        /\ log = LlmInvoke prompt (inr content) :: log'
        /\ loop_run columns 2 0 (Str.strip content) log'
             (match r with inl e => inl e | inr p => inr (Some p) end)).
Proof.
  intros Hrun prompt. unfold cycle, generate_sql in Hrun.
  unfold bind at 1 2 in Hrun. unfold llm_invoke in Hrun. fold prompt in Hrun.
  destruct (llm prompt (world s)) as [[e|content] w] eqn:Hllm.
  - left. exists e, w. now simplify_eq/=.
  - right. exists content, w. simpl in Hrun. rewrite replace_nil_nil in Hrun.
    unfold bind in Hrun.
    destruct (execute_with_retry _ _ _ _ _ _) as [[v s1] log1] eqn:Hloop.
    assert (Hlr := Hloop). apply execute_with_retry_run in Hlr; [|lia].
    destruct v as [e|v].
    + exists log1. now simplify_eq/=.
    + destruct (loop_run_returns _ _ _ _ _ _ Hlr) as (df & q & pre & -> & _).
      simpl in Hrun. exists log1. simplify_eq/=.
      rewrite app_nil_r. now repeat split.
Qed.

(** The handler lets no exception out: it ends the page with the error
    text, or with the SQL and the rows the cycle returned. *)
Lemma run_query_eq (columns : list str) (question : str)
    (s : @St World Conn) rc s' lc :
  cycle llm duckdb columns question s = (rc, s', lc) ->
  run_query llm duckdb columns question s
  = (inr tt, s',
     lc ++ match rc with
           | inl e =>
               [StError (error_text e)]
           | inr p =>
               [StSubheader (129504%N :: py " Generated SQL");
                StCode (snd p);
                StSubheader (128200%N :: py " Query Result");
                StDataframe (fst p)]
           end).
Proof.
  intros Hc. unfold run_query.
  unfold bind at 1. unfold try_. unfold bind at 1. rewrite Hc.
  destruct rc as [e|p]; simpl; [reflexivity | now rewrite app_nil_r].
Qed.

Lemma loop_run_first_success (columns : list str) (retries attempt : Z)
    (sql : str) (log : list (@Event Value)) r q df rest :
  loop_run columns retries attempt sql log r ->
  exec_calls log = (q, inr df) :: rest ->
  q = sql /\ log = [ConExecute sql (inr df)] /\ r = inr (Some (df, sql)).
Proof. destruct 1; intros Hcalls; now simplify_eq/=. Qed.

(** The answer to a fix is executed next, stripped. *)
Lemma loop_run_candidate (columns : list str) (retries attempt : Z)
    (sql : str) (log : list (@Event Value)) r :
  loop_run columns retries attempt sql log r ->
  forall pre p content post,
    log = pre ++ LlmInvoke p (inr content) :: post ->
    exists out rest, post = ConExecute (Str.strip content) out :: rest.
Proof.
  induction 1 as [a0 q0 d0|q0 x0|a0 q0 x0 x1 Hne
                  |attempt sql e0 c0 log r Hne Hrun IH];
    intros pre p content post Hlog.
  - destruct pre as [|? [|]]; simplify_eq/=.
  - destruct pre as [|? [|]]; simplify_eq/=.
  - destruct pre as [|? [|? [|]]]; simplify_eq/=.
  - destruct pre as [|? [|? pre]]; simplify_eq/=.
    + eapply loop_run_head. exact Hrun.
    + eapply IH. reflexivity.
Qed.

(** The loop writes nothing to the page. *)
Lemma loop_run_page (columns : list str) (retries attempt : Z)
    (sql : str) (log : list (@Event Value)) r :
  loop_run columns retries attempt sql log r -> page log = [].
Proof. induction 1; simpl; auto. Qed.

(** C3: when the first candidate of a cycle executes, the cycle has called
    the model once, with the generation prompt, and never with a fix
    prompt: its events are that call and that execution, and it returns the
    rows with the candidate. The same holds of [execute_with_retry] alone,
    for every bound: it does not call the model. *)
Theorem first_success_no_fix_call (columns : list str) (question : str)
    (s : @St World Conn) r s' log q df rest :
  cycle llm duckdb columns question s = (r, s', log) ->
  exec_calls log = (q, inr df) :: rest ->
  (exists content,
     q = Str.strip content
     /\ log = [LlmInvoke (sql_prompt_format question
                            (Str.join (py ", ") columns)) (inr content);
               ConExecute q (inr df)]
     /\ llm_calls log = [(sql_prompt_format question
                            (Str.join (py ", ") columns), inr content)]
     /\ r = inr (df, q))
  /\ forall sql retries (s0 : @St World Conn) r0 s0' log0 rest0,
       0 <= retries ->
       execute_with_retry llm duckdb columns sql retries s0
         = (r0, s0', log0) ->
       exec_calls log0 = (sql, inr df) :: rest0 ->
       llm_calls log0 = [] /\ r0 = inr (Some (df, sql)).
Proof.
  intros Hrun Hcalls. split.
  - destruct (cycle_inv _ _ _ _ _ _ Hrun)
      as [(e & w & _ & -> & _)|(content & w & log' & _ & -> & Hlr)];
      [discriminate|].
    simpl in Hcalls.
    destruct (loop_run_first_success _ _ _ _ _ _ _ _ _ Hlr Hcalls)
      as (-> & -> & Hr).
    exists content. destruct r as [e|p]; simplify_eq/=. done.
  - intros sql retries s0 r0 s0' log0 rest0 Hr Hrun0 Hcalls0.
    apply execute_with_retry_run in Hrun0; [|lia].
    destruct (loop_run_first_success _ _ _ _ _ _ _ _ _ Hrun0 Hcalls0)
      as (_ & -> & ->). done.
Qed.

(** C4: when the call of the model raises, nothing is retried. If the
    generation call raises, the cycle consists of that call alone (no
    execution, no fix call) and raises its exception, and the handler shows
    it; and whichever call of the model raises, it is the last event of the
    cycle, whose outcome is that exception. *)
Theorem model_failure_not_retried (columns : list str) (question : str)
    (s : @St World Conn) r s' log :
  cycle llm duckdb columns question s = (r, s', log) ->
  let prompt := sql_prompt_format question (Str.join (py ", ") columns) in
  (forall e w,
     llm prompt (world s) = (inl e, w) ->
     r = inl e
     /\ log = [LlmInvoke prompt (inl e)]
     /\ exec_calls log = []
     /\ run_query llm duckdb columns question s
        = (inr tt, s',
           [LlmInvoke prompt (inl e);
            StError (error_text e)]))
  /\ (forall pre p e post,
        log = pre ++ LlmInvoke p (inl e) :: post ->
        post = [] /\ r = inl e).
Proof.
  intros Hrun prompt. split.
  - intros e w Hllm.
    destruct (cycle_inv _ _ _ _ _ _ Hrun)
      as [(e1 & w1 & Hl & -> & -> & _)|(content & w1 & log' & Hl & _)];
      fold prompt in Hl; rewrite Hllm in Hl; simplify_eq.
    repeat split. now rewrite (run_query_eq _ _ _ _ _ _ Hrun).
  - intros pre p e post Hlog.
    destruct (cycle_inv _ _ _ _ _ _ Hrun)
      as [(e1 & w1 & _ & -> & -> & _)|(content & w1 & log' & _ & -> & Hlr)].
    + destruct pre as [|? [|]]; simplify_eq/=. done.
    + destruct pre as [|? pre]; simplify_eq/=.
      destruct (loop_run_llm_raised _ _ _ _ _ _ Hlr pre p e post eq_refl)
        as [-> Hr].
      split; [done|]. destruct r; simplify_eq/=. done.
Qed.

(** C7, as the code has it: when the bound is reached, that is when the
    third execution of a cycle has failed, the cycle raises the exception of
    that execution, and all the handler shows is the error text made of
    [str(e)] of that exception. *)
Theorem exhausted_failure_shows_last_error (columns : list str)
    (question : str) (s : @St World Conn) r s' log calls q e :
  run_query llm duckdb columns question s = (r, s', log) ->
  exec_calls log = calls ++ [(q, inl e)] ->
  length calls = 2%nat ->
  exists lc,
    cycle llm duckdb columns question s = (inl e, s', lc)
    /\ last lc = Some (ConExecute q (inl e))
    /\ log = lc ++ [StError (error_text e)]
    /\ page log = [StError (error_text e)].
Proof.
  intros Hrun Hcalls Hlen.
  destruct (cycle llm duckdb columns question s) as [[rc sc] lc] eqn:Hc.
  rewrite (run_query_eq _ _ _ _ _ _ Hc) in Hrun.
  injection Hrun as _ <- <-.
  assert (Hex : exec_calls lc = calls ++ [(q, inl e)]).
  { unfold exec_calls in *. rewrite omap_app in Hcalls.
    destruct rc; simpl in Hcalls; now rewrite app_nil_r in Hcalls. }
  destruct (cycle_inv _ _ _ _ _ _ Hc)
    as [(e1 & w1 & _ & -> & -> & _)|(content & w1 & log' & _ & -> & Hlr)].
  { destruct calls; simplify_eq/=. }
  simpl in Hex.
  destruct (loop_run_all_failed _ _ _ _ _ _ Hlr ltac:(lia) calls q e Hex
              ltac:(lia)) as [Hr [pre ->]].
  destruct rc as [e1|p]; simplify_eq/=.
  exists (LlmInvoke (sql_prompt_format question (Str.join (py ", ") columns))
            (inr content) :: pre ++ [ConExecute q (inl e)]).
  split; [reflexivity|]. split.
  { rewrite app_comm_cons. apply last_snoc. }
  split; [reflexivity|].
  pose proof (loop_run_page _ _ _ _ _ _ Hlr) as Hp.
  unfold page in *. now rewrite omap_app, Hp.
Qed.

(** C9: [.replace("", "")] changes nothing, so the candidate is the answer
    of the model, stripped: in [generate_sql], and for every answer to a fix
    prompt in [execute_with_retry]. *)
Theorem candidate_is_stripped_response :
  (forall content : str, Str.replace content [] [] = content)
  /\ (forall columns question (s : @St World Conn) content w,
        llm (sql_prompt_format question (Str.join (py ", ") columns))
            (world s) = (inr content, w) ->
        generate_sql (Value := Value) llm columns question s
        = (inr (Str.strip content), {| world := w; con := con s |},
           [LlmInvoke (sql_prompt_format question
                         (Str.join (py ", ") columns)) (inr content)]))
  /\ (forall columns sql retries (s : @St World Conn) r s' log
             pre p content post,
        0 <= retries ->
        execute_with_retry llm duckdb columns sql retries s = (r, s', log) ->
        log = pre ++ LlmInvoke p (inr content) :: post ->
        exists out rest, post = ConExecute (Str.strip content) out :: rest).
Proof.
  split; [exact replace_nil_nil|]. split.
  - intros columns question s content w Hllm.
    unfold generate_sql, bind, llm_invoke. rewrite Hllm. simpl.
    now rewrite replace_nil_nil.
  - intros columns sql retries s r s' log pre p content post Hr Hrun Hlog.
    apply execute_with_retry_run in Hrun; [|lia].
    eapply loop_run_candidate; eassumption.
Qed.

(** ** The script and the schema in the prompts *)

Lemma loop_run_stmts (columns : list str) (retries attempt : Z)
    (sql : str) (log : list (@Event Value)) r :
  loop_run columns retries attempt sql log r -> stmt_calls log = [].
Proof. induction 1; simpl; auto. Qed.

(** A run of the script is its way to the query block, on which no model is
    called and no candidate executed, and which ends the run when something
    raises, when no file is uploaded or when nothing is asked; and then one
    cycle, with what the handler shows of it. *)
Lemma script_cases (up : option File) (button : bool) (question : str)
    (w : World) r w' log :
  script dotenv groq read_csv db_connect db_register db_execute llm duckdb
    repr_list up button question w = (r, w', log) ->
  exists setup,
    llm_calls setup = [] /\ exec_calls setup = []
    /\ (stmt_calls setup = []
        \/ exists o,
             stmt_calls setup
             = [(py "CREATE OR REPLACE TABLE data AS SELECT * FROM df", o)])
    /\ ((log = setup
         /\ ((exists e,
                r = inl e
                /\ (last setup
                    = Some (ChatGroq (py "llama-3.1-8b-instant") 0 (inl e))
                    \/ (exists f, up = Some f /\ read_csv f = inl e)
                    \/ last setup = Some (DuckdbConnect (inl e))
                    \/ (exists df,
                          last setup
                          = Some (ConRegister (py "df") df (inl e)))
                    \/ last setup
                       = Some (ConStatement
                                 (py "CREATE OR REPLACE TABLE data AS SELECT * FROM df")
                                 (inl e))))
             \/ (r = inr tt
                 /\ (up = None
                     \/ button && negb (bool_decide (question = []))
                        = false))))
        \/ (exists f df s2 rc sc lc,
              up = Some f /\ read_csv f = inr df
              /\ button && negb (bool_decide (question = [])) = true
              /\ cycle llm duckdb (df_columns df) question s2 = (rc, sc, lc)
              /\ r = inr tt /\ w' = world sc
              /\ log = setup ++ lc
                       ++ match rc with
                          | inl e => [StError (error_text e)]
                          | inr p =>
                              [StSubheader (129504%N :: py " Generated SQL");
                               StCode (snd p);
                               StSubheader (128200%N :: py " Query Result");
                               StDataframe (fst p)]
                          end)).
Proof.
  intros H. unfold script in H.
  unfold bind, load_dotenv, emit, chat_groq, lift, duckdb_connect, with_con,
    con_register, con_execute, ret in H.
  cbn [world con] in H.
  destruct (groq _ _ _) as [[e|[]] w1] eqn:Hg.
  { simpl in H. simplify_eq. eexists. split; [|split; [|split; [|left; split;
      [reflexivity|]]]]; [reflexivity..| |]; [now left|].
    left. exists e. split; [reflexivity|]. now left. }
  destruct up as [f|].
  2:{ simpl in H. simplify_eq. eexists. split; [|split; [|split; [|left; split;
        [reflexivity|]]]]; [reflexivity..| |]; [now left|].
      right. split; [reflexivity | now left]. }
  destruct (read_csv f) as [e|df] eqn:Hf.
  { simpl in H. simplify_eq. eexists. split; [|split; [|split; [|left; split;
      [reflexivity|]]]]; [reflexivity..| |]; [now left|].
    left. exists e. split; [reflexivity|]. right. left. now exists f. }
  destruct (db_connect w1) as [[e|c0] w2] eqn:Hc0.
  { simpl in H. simplify_eq. eexists. split; [|split; [|split; [|left; split;
      [reflexivity|]]]]; [reflexivity..| |]; [now left|].
    left. exists e. split; [reflexivity|]. do 2 right. now left. }
  cbn [world con] in H.
  destruct (db_register _ _ _ _) as [[[e|[]] c1] w3] eqn:Hc1.
  { simpl in H. simplify_eq. eexists. split; [|split; [|split; [|left; split;
      [reflexivity|]]]]; [reflexivity..| |]; [now left|].
    left. exists e. split; [reflexivity|]. do 3 right. left. now exists df. }
  cbn [world con] in H.
  destruct (db_execute _ _ _) as [[[e|[]] c2] w4] eqn:Hc2.
  { simpl in H. simplify_eq. eexists. split; [|split; [|split; [|left; split;
      [reflexivity|]]]]; [reflexivity..| |]; [right; now eexists|].
    left. exists e. split; [reflexivity|]. do 4 right. reflexivity. }
  cbn [world con] in H.
  destruct (button && negb (bool_decide (question = []))) eqn:Hgd.
  2:{ simpl in H. simplify_eq. eexists. split; [|split; [|split; [|left; split;
        [reflexivity|]]]]; [reflexivity..| |]; [right; now eexists|].
      right. split; [reflexivity | now right]. }
  destruct (cycle llm duckdb (df_columns df) question
              {| world := w4; con := c2 |}) as [[rc sc] lc] eqn:Hc.
  rewrite (run_query_eq _ _ _ _ _ _ Hc) in H. simpl in H. simplify_eq.
  eexists [_; _; _; _; _; _; _; _; _; _; _; _; _].
  split; [|split; [|split; [|right]]].
  4:{ exists f, df, {| world := w4; con := c2 |}, rc, sc, lc.
      repeat split; try reflexivity; assumption. }
  all: try reflexivity.
  right. now eexists.
Qed.

(** The prompts of one run of the script are made with the column names of
    the data frame read in that run. *)
Lemma script_prompts (up : option File) (button : bool) (question : str)
    (w : World) r w' log p out :
  script dotenv groq read_csv db_connect db_register db_execute llm duckdb
    repr_list up button question w = (r, w', log) ->
  In (LlmInvoke p out) log ->
  exists f df,
    up = Some f /\ read_csv f = inr df
    /\ ((exists q,
           p = sql_prompt_format q (Str.join (py ", ") (df_columns df)))
        \/ (exists q e,
              p = fix_prompt_format q e
                    (Str.join (py ", ") (df_columns df)))).
Proof.
  intros Hrun Hin.
  assert (Hcalls : forall l : list (@Event Value),
            In (LlmInvoke p out) l -> llm_calls l <> []).
  { intros l Hl. apply list_elem_of_In in Hl.
    assert (Hm : (p, out) ∈ llm_calls l)
      by (apply list_elem_of_omap; now exists (LlmInvoke p out)).
    intros Hnil. rewrite Hnil in Hm. now apply not_elem_of_nil in Hm. }
  destruct (script_cases _ _ _ _ _ _ _ Hrun)
    as (setup & Hl & _ & _ & [[-> _]|(f & df & s2 & rc & sc & lc & -> & Hf
                                       & _ & Hc & _ & _ & ->)]).
  { now apply Hcalls in Hin. }
  exists f, df. split; [reflexivity|]. split; [exact Hf|].
  apply in_app_or in Hin as [Hin|Hin]; [now apply Hcalls in Hin|].
  apply in_app_or in Hin as [Hin|Hin];
    [|destruct rc; simpl in Hin; intuition discriminate].
  destruct (cycle_inv _ _ _ _ _ _ Hc)
    as [(e1 & w1 & _ & -> & _)|(content & w1 & log' & _ & -> & Hlr)].
  - destruct Hin as [|[]]; simplify_eq. left. eauto.
  - destruct Hin as [|Hin]; simplify_eq; [left; eauto|].
    right. eapply loop_run_prompts; eassumption.
Qed.

Lemma session_reruns (ins : list (@Interaction File)) (w : World) i log :
  In (i, log)
     (session dotenv groq read_csv db_connect db_register db_execute llm
        duckdb repr_list ins w) ->
  exists w0 r w',
    rerun dotenv groq read_csv db_connect db_register db_execute llm duckdb
      repr_list i w0 = (r, w', log).
Proof.
  revert w. induction ins as [|j ins IH]; intros w Hin; simpl in Hin;
    [destruct Hin|].
  destruct (rerun _ _ _ _ _ _ _ _ _ j w) as [[r w'] l] eqn:Hj.
  destruct Hin as [Heq|Hin]; [|eapply IH; exact Hin].
  simplify_eq. eauto.
Qed.

(** C6: all through a session, whatever was uploaded before, every prompt
    sent to the model in a run of the script is the generation prompt or the
    fix prompt filled with the column names, joined by [", "], of the data
    frame read from the file uploaded in that very run, and contains that
    joined list. *)
Theorem prompts_carry_current_schema (ins : list (@Interaction File))
    (w : World) i log p out :
  In (i, log)
     (session dotenv groq read_csv db_connect db_register db_execute llm
        duckdb repr_list ins w) ->
  In (LlmInvoke p out) log ->
  exists f df,
    uploaded_file i = Some f /\ read_csv f = inr df
    /\ ((exists q,
           p = sql_prompt_format q (Str.join (py ", ") (df_columns df)))
        \/ (exists q e,
              p = fix_prompt_format q e
                    (Str.join (py ", ") (df_columns df))))
    /\ Str.contains p (Str.join (py ", ") (df_columns df)).
Proof.
  intros Hs Hin. destruct (session_reruns _ _ _ _ Hs) as (w0 & r & s' & Hr).
  destruct (script_prompts _ _ _ _ _ _ _ _ _ Hr Hin)
    as (f & df & Hf & Hdf & Hp).
  exists f, df. repeat split; try assumption.
  destruct Hp as [(q & ->)|(q & e & ->)].
  - apply sql_prompt_contains.
  - apply fix_prompt_contains.
Qed.

End Properties.

(** * The properties at work in the scripted world *)

(** Three candidates rejected in a row: the third exception is raised. *)
Lemma default_bound_three_attempts_witness :
  let run := execute_with_retry Mock.llm Mock.duckdb Mock.columns Mock.q_bad 2
               (Mock.start (Mock.never_fixed Mock.q_bad Mock.q_other)) in
  exec_calls (snd run)
  = [(Mock.q_bad, inl Mock.unknown_column);
     (Mock.q_bad, inl Mock.unknown_column);
     (Mock.q_other, inl Mock.conversion_error)]
  /\ fst (fst run) = inl Mock.conversion_error
  /\ last (snd run)
     = Some (ConExecute Mock.q_other (inl Mock.conversion_error)).
Proof.
  intros run.
  assert (Hcalls : exec_calls (snd run)
                   = [(Mock.q_bad, inl Mock.unknown_column);
                      (Mock.q_bad, inl Mock.unknown_column);
                      (Mock.q_other, inl Mock.conversion_error)])
    by (vm_compute; reflexivity).
  split; [exact Hcalls|].
  apply (proj2 (default_bound_three_attempts Mock.llm Mock.duckdb
                  Mock.columns Mock.q_bad
                  (Mock.start (Mock.never_fixed Mock.q_bad Mock.q_other))
                  (fst (fst run)) (snd (fst run)) (snd run) eq_refl)
           _ _ _ _ _ _ Hcalls).
Defined.

(** The unknown column [regoin]: the fix prompt carries the candidate and the
    error as they are, and the corrected candidate is executed next. *)
Lemma fix_call_follows_failed_attempt_witness :
  let run := execute_with_retry Mock.llm Mock.duckdb Mock.columns Mock.q_bad 2
               (Mock.start Mock.fixed_once) in
  snd run = [] ++ ConExecute Mock.q_bad (inl Mock.unknown_column)
                  :: tail (snd run)
  /\ exists out rest,
       let prompt :=
         fix_prompt_format Mock.q_bad (exc_str Mock.unknown_column)
           (Str.join (py ", ") Mock.columns) in
       tail (snd run) = LlmInvoke prompt out :: rest
       /\ Str.contains prompt Mock.q_bad
       /\ Str.contains prompt (exc_str Mock.unknown_column)
       /\ Str.contains prompt (Str.join (py ", ") Mock.columns)
       /\ match out with
          | inl e' => rest = [] /\ fst (fst run) = inl e'
          | inr content =>
              exists out' rest',
                rest = ConExecute (Str.strip content) out' :: rest'
          end.
Proof.
  intros run.
  assert (Hlog : snd run = [] ++ ConExecute Mock.q_bad
                                   (inl Mock.unknown_column)
                                 :: tail (snd run))
    by (vm_compute; reflexivity).
  split; [exact Hlog|].
  apply (fix_call_follows_failed_attempt Mock.llm Mock.duckdb Mock.columns
           Mock.q_bad 2 (Mock.start Mock.fixed_once)
           (fst (fst run)) (snd (fst run)) (snd run)
           [] Mock.q_bad Mock.unknown_column (tail (snd run)));
    [lia | reflexivity | exact Hlog | simpl; lia].
Defined.

(** A first candidate that executes: one call of the model, no fix. *)
Lemma first_success_no_fix_call_witness :
  let w := Mock.asked (inr (py " " ++ Mock.q_good))
             ([], [inr Mock.totals]) in
  let run := cycle Mock.llm Mock.duckdb Mock.columns Mock.question
               (Mock.start w) in
  exec_calls (snd run) = [(Mock.q_good, inr Mock.totals)]
  /\ llm_calls (snd run)
     = [(sql_prompt_format Mock.question (py "region, sales"),
         inr (py " " ++ Mock.q_good))]
  /\ fst (fst run) = inr (Mock.totals, Mock.q_good).
Proof.
  intros w run.
  assert (Hcalls : exec_calls (snd run) = [(Mock.q_good, inr Mock.totals)])
    by (vm_compute; reflexivity).
  split; [exact Hcalls|].
  destruct (proj1 (first_success_no_fix_call Mock.llm Mock.duckdb
                     Mock.columns Mock.question (Mock.start w)
                     (fst (fst run)) (snd (fst run)) (snd run)
                     Mock.q_good Mock.totals [] eq_refl Hcalls))
    as (content & _ & _ & _ & Hr).
  split; [vm_compute; reflexivity | exact Hr].
Defined.

(** The model times out on the generation prompt: nothing is executed. *)
Lemma model_failure_not_retried_witness :
  let w := Mock.asked (inl Mock.timeout) Mock.fixed_once in
  let run := cycle Mock.llm Mock.duckdb Mock.columns Mock.question
               (Mock.start w) in
  let prompt := sql_prompt_format Mock.question
                  (Str.join (py ", ") Mock.columns) in
  fst (fst run) = inl Mock.timeout
  /\ snd run = [LlmInvoke prompt (inl Mock.timeout)]
  /\ exec_calls (snd run) = []
  /\ run_query Mock.llm Mock.duckdb Mock.columns Mock.question (Mock.start w)
     = (inr tt, snd (fst run),
        [LlmInvoke prompt (inl Mock.timeout);
         StError (error_text Mock.timeout)]).
Proof.
  intros w run prompt.
  apply (proj1 (model_failure_not_retried Mock.llm Mock.duckdb Mock.columns
                  Mock.question (Mock.start w)
                  (fst (fst run)) (snd (fst run)) (snd run) eq_refl)
           Mock.timeout Mock.fixed_once).
  reflexivity.
Defined.

(** The corrected candidate is the one returned with the rows. *)
Lemma success_returns_executed_candidate_witness :
  let run := execute_with_retry Mock.llm Mock.duckdb Mock.columns Mock.q_bad 2
               (Mock.start Mock.fixed_once) in
  fst (fst run) = inr (Some (Mock.totals, Mock.q_good))
  /\ exists df q pre,
       Some (Mock.totals, Mock.q_good) = Some (df, q)
       /\ snd run = pre ++ [ConExecute q (inr df)]
       /\ (forall c, In c (exec_calls pre) -> exists e, snd c = inl e)
       /\ (pre = [] /\ q = Mock.q_bad
           \/ exists pre' p content,
                pre = pre' ++ [LlmInvoke p (inr content)]
                /\ q = Str.strip content).
Proof.
  intros run.
  assert (Hr : fst (fst run) = inr (Some (Mock.totals, Mock.q_good)))
    by (vm_compute; reflexivity).
  split; [exact Hr|].
  apply (success_returns_executed_candidate Mock.llm Mock.duckdb Mock.columns
           Mock.q_bad 2 (Mock.start Mock.fixed_once)
           (Some (Mock.totals, Mock.q_good)) (snd (fst run)) (snd run));
    [lia | vm_compute; reflexivity].
Defined.

(** After a second upload the prompt carries the columns of the new file. *)
Lemma prompts_carry_current_schema_witness :
  let w : Mock.World :=
    ([inr Mock.q_good; inr (py "SELECT COUNT(*) FROM data")],
     [inr Mock.totals; inr Mock.stock]) in
  let i := {| uploaded_file := Some Mock.stock; button := true;
              user_question := py "how many items" |} in
  let p := sql_prompt_format (py "how many items")
             (py "item, qty, price") in
  exists f df,
    uploaded_file i = Some f /\ Mock.read_csv f = inr df
    /\ ((exists q,
           p = sql_prompt_format q (Str.join (py ", ") (df_columns df)))
        \/ (exists q e,
              p = fix_prompt_format q e
                    (Str.join (py ", ") (df_columns df))))
    /\ Str.contains p (Str.join (py ", ") (df_columns df)).
Proof.
  intros w i p.
  pose (sess := session Mock.dotenv Mock.groq Mock.read_csv Mock.db_connect
                  Mock.db_register Mock.db_execute Mock.llm Mock.duckdb
                  Mock.repr_list Mock.two_uploads w).
  apply (prompts_carry_current_schema Mock.dotenv Mock.groq Mock.read_csv
           Mock.db_connect Mock.db_register Mock.db_execute Mock.llm
           Mock.duckdb Mock.repr_list Mock.two_uploads w i
           (snd (nth 1 sess (i, []))) p
           (inr (py "SELECT COUNT(*) FROM data"))).
  - right. left. vm_compute. reflexivity.
  - vm_compute. do 13 right. left. reflexivity.
Defined.

(** Three candidates rejected in a cycle: the page shows the last error. *)
Lemma exhausted_failure_shows_last_error_witness :
  let w := Mock.asked (inr Mock.q_bad)
             (Mock.never_fixed Mock.q_bad Mock.q_other) in
  let run := run_query Mock.llm Mock.duckdb Mock.columns Mock.question
               (Mock.start w) in
  exec_calls (snd run)
  = [(Mock.q_bad, inl Mock.unknown_column);
     (Mock.q_bad, inl Mock.unknown_column)]
    ++ [(Mock.q_other, inl Mock.conversion_error)]
  /\ exists lc,
       cycle Mock.llm Mock.duckdb Mock.columns Mock.question (Mock.start w)
       = (inl Mock.conversion_error, snd (fst run), lc)
       /\ last lc = Some (ConExecute Mock.q_other (inl Mock.conversion_error))
       /\ snd run = lc ++ [StError (error_text Mock.conversion_error)]
       /\ page (snd run) = [StError (error_text Mock.conversion_error)].
Proof.
  intros w run.
  assert (Hcalls : exec_calls (snd run)
                   = [(Mock.q_bad, inl Mock.unknown_column);
                      (Mock.q_bad, inl Mock.unknown_column)]
                     ++ [(Mock.q_other, inl Mock.conversion_error)])
    by (vm_compute; reflexivity).
  split; [exact Hcalls|].
  apply (exhausted_failure_shows_last_error Mock.llm Mock.duckdb Mock.columns
           Mock.question (Mock.start w)
           (fst (fst run)) (snd (fst run)) (snd run) _ _ _
           eq_refl Hcalls eq_refl).
Defined.

(** C7, as the claim has it, fails: two cycles that exhaust the bound on
    different last candidates raise the same exception and show the same
    page, so neither carries the candidate. *)
Lemma exhausted_failure_hides_last_sql :
  ~ (exists sql_of : Exception -> list (@Event Z) -> str,
       forall (w : Mock.World) r s' log calls q e,
         run_query Mock.llm Mock.duckdb Mock.columns Mock.question
           (Mock.start w) = (r, s', log) ->
         exec_calls log = calls ++ [(q, inl e)] ->
         length calls = 2%nat ->
         sql_of e (page log) = q).
Proof.
  intros [sql_of H].
  pose (w1 := Mock.asked (inr Mock.q_bad)
                (Mock.never_fixed Mock.q_bad Mock.q_other)).
  pose (w2 := Mock.asked (inr Mock.q_bad)
                (Mock.never_fixed Mock.q_bad Mock.q_good)).
  pose (run1 := run_query Mock.llm Mock.duckdb Mock.columns Mock.question
                  (Mock.start w1)).
  pose (run2 := run_query Mock.llm Mock.duckdb Mock.columns Mock.question
                  (Mock.start w2)).
  assert (H1 := H w1 (fst (fst run1)) (snd (fst run1)) (snd run1)
                  [(Mock.q_bad, inl Mock.unknown_column);
                   (Mock.q_bad, inl Mock.unknown_column)]
                  Mock.q_other Mock.conversion_error eq_refl eq_refl eq_refl).
  assert (H2 := H w2 (fst (fst run2)) (snd (fst run2)) (snd run2)
                  [(Mock.q_bad, inl Mock.unknown_column);
                   (Mock.q_bad, inl Mock.unknown_column)]
                  Mock.q_good Mock.conversion_error eq_refl eq_refl eq_refl).
  assert (Hp : page (snd run1) = page (snd run2)) by reflexivity.
  rewrite Hp, H2 in H1. vm_compute in H1. discriminate H1.
Qed.

(** An answer in code fences keeps its fences; only the last newline goes. *)
Lemma candidate_is_stripped_response_witness :
  let fenced := py "```sql
SELECT COUNT(*) FROM data
```
" in
  let w : Mock.World := ([inr fenced], []) in
  generate_sql (Value := Z) Mock.llm Mock.columns Mock.question
    (Mock.start w)
  = (inr (py "```sql
SELECT COUNT(*) FROM data
```"),
     {| world := ([], []); con := ∅ |},
     [LlmInvoke (sql_prompt_format Mock.question
                   (Str.join (py ", ") Mock.columns)) (inr fenced)]).
Proof.
  intros fenced w.
  exact (proj1 (proj2 (candidate_is_stripped_response Mock.llm Mock.duckdb))
           Mock.columns Mock.question (Mock.start w) fenced ([], [])
           eq_refl).
Defined.

(** With [retries = 0] the first error is raised and the model not called. *)
Lemma execute_with_retry_bounded_witness :
  let s := Mock.start ([], [inl Mock.unknown_column]) in
  exists r s' log,
    execute_with_retry Mock.llm Mock.duckdb Mock.columns Mock.q_bad 0 s
    = (r, s', log)
    /\ llm_calls log = []
    /\ r = inl Mock.unknown_column
    /\ log = [ConExecute Mock.q_bad (inl Mock.unknown_column)].
Proof.
  intros s.
  destruct (execute_with_retry_bounded Mock.llm Mock.duckdb Mock.columns
              Mock.q_bad 0 s ltac:(lia))
    as (r & s' & log & Hrun & _ & _ & H0).
  destruct (H0 eq_refl) as [Hl H1].
  destruct (H1 Mock.unknown_column ∅ ([], []) eq_refl) as [Hr Hlog].
  exists r, s', log. auto.
Defined.

(** * Further properties of the script *)

Lemma contains_trans (s x y : str) :
  Str.contains s x -> Str.contains x y -> Str.contains s y.
Proof.
  intros (a & b & ->) (c & d & ->). exists (a ++ c), (d ++ b).
  now rewrite <- !app_assoc.
Qed.

Lemma join_contains (sep : str) (l : list str) (c : str) :
  In c l -> Str.contains (Str.join sep l) c.
Proof.
  unfold Str.join. induction l as [|x l IH]; intros Hin; [destruct Hin|].
  destruct Hin as [->|Hin].
  - destruct l; [now exists [], []; rewrite app_nil_r | apply contains_here].
  - destruct l as [|y l]; [destruct Hin|].
    do 2 apply contains_app_r. exact (IH Hin).
Qed.

Lemma lstrip_all_space (s : str) :
  forallb Str.isspace s = true -> Str.lstrip s = [].
Proof.
  induction s as [|c s IH]; simpl; [reflexivity|].
  destruct (Str.isspace c); [exact IH | discriminate].
Qed.

Lemma strip_all_space (s : str) :
  forallb Str.isspace s = true -> Str.strip s = [].
Proof.
  intros Hs. unfold Str.strip, Str.rstrip. now rewrite (lstrip_all_space s Hs).
Qed.

Section Script.

Context {Value File World Conn : Type}.
Variable dotenv : World -> World.
Variable groq : str -> Z -> World -> (Exception + unit) * World.
Variable read_csv : File -> Exception + @DataFrame Value.
Variable db_connect : World -> (Exception + Conn) * World.
Variable db_register : str -> @DataFrame Value -> Conn -> World ->
                       (Exception + unit) * Conn * World.
Variable db_execute : str -> Conn -> World ->
                      (Exception + unit) * Conn * World.
Variable llm : str -> World -> (Exception + str) * World.
Variable duckdb : str -> Conn -> World ->
                  (Exception + @DataFrame Value) * Conn * World.
Variable repr_list : list str -> str.

(** ** More on the retry loop *)

Lemma loop_run_nonempty (columns : list str) (retries attempt : Z) (sql : str)
    (log : list (@Event Value)) r :
  loop_run columns retries attempt sql log r -> log <> [].
Proof. destruct 1; discriminate. Qed.

(** A run that ends on a failed execution has used every attempt. *)
Lemma loop_run_gave_up (columns : list str) (retries attempt : Z) (sql : str)
    (log : list (@Event Value)) r :
  loop_run columns retries attempt sql log r ->
  attempt <= retries ->
  forall q e,
    last log = Some (ConExecute q (inl e)) ->
    r = inl e
    /\ Z.of_nat (length (exec_calls log)) = retries - attempt + 1
    /\ Z.of_nat (length (llm_calls log)) = retries - attempt
    /\ forall c, In c (exec_calls log) -> exists e', snd c = inl e'.
Proof.
  induction 1 as [a0 q0 d0|q0 x0|a0 q0 x0 x1 Hne
                  |attempt sql e0 content log r Hne Hrun IH];
    intros Hle q e Hlast.
  - simplify_eq/=.
  - simplify_eq/=. repeat split; try lia.
    intros c [<-|[]]. simpl. eauto.
  - simplify_eq/=.
  - assert (Hlast' : last log = Some (ConExecute q (inl e))).
    { destruct log as [|ev log]; [now apply loop_run_nonempty in Hrun|].
      exact Hlast. }
    destruct (IH ltac:(lia) q e Hlast') as (-> & Hex & Hll & Hall).
    simpl. repeat split; try lia.
    intros c [<-|Hc]; [simpl; eauto | now apply Hall].
Qed.

(** What is executed is the candidate given, or the stripped answer of the
    call of the model just before. *)
Lemma loop_run_provenance (columns : list str) (retries attempt : Z)
    (sql : str) (log : list (@Event Value)) r :
  loop_run columns retries attempt sql log r ->
  forall pre q out post,
    log = pre ++ ConExecute q out :: post ->
    (pre = [] /\ q = sql)
    \/ exists pre' p content,
         pre = pre' ++ [LlmInvoke p (inr content)] /\ q = Str.strip content.
Proof.
  induction 1 as [a0 q0 d0|q0 x0|a0 q0 x0 x1 Hne
                  |attempt sql e0 content log r Hne Hrun IH];
    intros pre q out post Hlog.
  - destruct pre as [|? [|]]; simplify_eq/=. now left.
  - destruct pre as [|? [|]]; simplify_eq/=. now left.
  - destruct pre as [|? [|? [|]]]; simplify_eq/=. now left.
  - destruct pre as [|? [|? pre]]; simplify_eq/=; [now left|]. right.
    destruct (IH pre q out post eq_refl)
      as [[-> ->]|(pre' & p & c & -> & ->)].
    + now exists [ConExecute sql (inl e0)],
        (fix_prompt_format sql (exc_str e0) (Str.join (py ", ") columns)),
        content.
    + now exists (ConExecute sql (inl e0)
                  :: LlmInvoke (fix_prompt_format sql (exc_str e0)
                                  (Str.join (py ", ") columns)) (inr content)
                  :: pre'), p, c.
Qed.

(** Calls of the model and executions alternate, an execution first. *)
Lemma loop_run_alternate (columns : list str) (retries attempt : Z)
    (sql : str) (log : list (@Event Value)) r :
  loop_run columns retries attempt sql log r ->
  (length (llm_calls log) <= length (exec_calls log)
   /\ length (exec_calls log) <= length (llm_calls log) + 1)%nat.
Proof. induction 1; simpl; lia. Qed.

(** A larger bound changes nothing in a run that returned. *)
Lemma retry_loop_mono (columns : list str) (retries : Z) (k n : nat) :
  forall attempt sql (s : @St World Conn) v s' log,
    attempt + Z.of_nat n = retries ->
    retry_loop llm duckdb columns retries (seqZ attempt (Z.of_nat (S n))) sql s
      = (inr v, s', log) ->
    retry_loop llm duckdb columns (retries + Z.of_nat k)
      (seqZ attempt (Z.of_nat (S (n + k)))) sql s
      = (inr v, s', log).
Proof.
  induction n as [|n IH]; intros attempt sql s v s' log Hn Hrun;
    rewrite seqZ_cons in Hrun by lia; rewrite seqZ_cons by lia;
    simpl in Hrun; simpl;
    unfold bind, try_, con_execute_df in Hrun |- *;
    destruct (duckdb sql (con s) (world s)) as [[[e|df] c] w] eqn:Hex;
    simpl in Hrun |- *; try exact Hrun.
  - assert (attempt = retries) as -> by lia.
    rewrite Z.eqb_refl in Hrun. discriminate Hrun.
  - destruct (Z.eqb_spec attempt retries) as [|Hne]; [lia|].
    destruct (Z.eqb_spec attempt (retries + Z.of_nat k)) as [|Hne']; [lia|].
    unfold bind, llm_invoke in Hrun |- *. simpl in Hrun |- *.
    destruct (llm _ w) as [[e'|content] w'] eqn:Hllm; [discriminate Hrun|].
    replace (Z.pred (Z.of_nat (S (S n)))) with (Z.of_nat (S n)) in Hrun
      by lia.
    replace (Z.pred (Z.of_nat (S (S (n + k)))))
      with (Z.of_nat (S (n + k))) by lia.
    destruct (retry_loop _ _ _ retries _ _ _) as [[r2 s2] l2] eqn:Hrec.
    destruct r2 as [e2|v2]; [discriminate Hrun|].
    assert (Hn' : Z.succ attempt + Z.of_nat n = retries) by lia.
    rewrite (IH _ _ _ _ _ _ Hn' Hrec). exact Hrun.
Qed.

(** The first thing [execute_with_retry] does is to execute its argument on
    the connection and in the world it is called in. *)
Lemma execute_with_retry_first (columns : list str) (sql : str) (retries : Z)
    (s : @St World Conn) v s' log :
  0 <= retries ->
  execute_with_retry llm duckdb columns sql retries s = (v, s', log) ->
  exists rest,
    log = ConExecute sql (fst (fst (duckdb sql (con s) (world s)))) :: rest.
Proof.
  intros Hr Hrun. unfold execute_with_retry, range in Hrun.
  rewrite seqZ_cons in Hrun by lia. simpl in Hrun.
  unfold bind at 1 in Hrun. unfold try_, con_execute_df in Hrun.
  destruct (duckdb sql (con s) (world s)) as [[out c] w].
  match type of Hrun with
  | match ?k with _ => _ end = _ => destruct k as [[r2 s2] l2]
  end.
  simplify_eq. now exists l2.
Qed.

(** X1: with a negative bound [execute_with_retry] executes nothing, calls
    nothing and returns [None], which the unpacking on line 132 would turn
    into a [TypeError]. *)
Theorem negative_bound_returns_none (columns : list str) (sql : str)
    (retries : Z) (s : @St World Conn) :
  retries < 0 ->
  execute_with_retry llm duckdb columns sql retries s = (inr None, s, [])
  /\ bind (execute_with_retry llm duckdb columns sql retries) unpack_pair s
     = (inl {| exc_class := py "TypeError";
               exc_str := py "cannot unpack non-iterable NoneType object" |},
        s, []).
Proof.
  intros Hr.
  assert (Hrun : execute_with_retry llm duckdb columns sql retries s
                 = (inr None, s, [])).
  { unfold execute_with_retry, range, seqZ.
    now replace (Z.to_nat (retries + 1)) with 0%nat by lia. }
  split; [exact Hrun|]. unfold bind. now rewrite Hrun.
Qed.

(** X2: [execute_with_retry] gives up only at the bound: when its last event
    is a failed execution, it raises that exception, and it has executed
    [retries + 1] candidates, all of which failed, and called the model
    [retries] times. *)
Theorem gives_up_only_at_bound (columns : list str) (sql : str)
    (retries : Z) (s : @St World Conn) r s' log q e :
  0 <= retries ->
  execute_with_retry llm duckdb columns sql retries s = (r, s', log) ->
  last log = Some (ConExecute q (inl e)) ->
  r = inl e
  /\ Z.of_nat (length (exec_calls log)) = retries + 1
  /\ Z.of_nat (length (llm_calls log)) = retries
  /\ forall c, In c (exec_calls log) -> exists e', snd c = inl e'.
Proof.
  intros Hr Hrun Hlast. apply execute_with_retry_run in Hrun; [|lia].
  destruct (loop_run_gave_up _ _ _ _ _ _ Hrun Hr q e Hlast)
    as (-> & Hex & Hll & Hall).
  repeat split; [lia | lia | exact Hall].
Qed.

(** X3: a cycle executes nothing but answers of the model: just before
    every execution comes a call of the model that answered, and the text
    executed is that answer stripped, so that it neither starts nor ends
    with whitespace. *)
Theorem cycle_executes_model_answers (columns : list str) (question : str)
    (s : @St World Conn) r s' log pre q out post :
  cycle llm duckdb columns question s = (r, s', log) ->
  log = pre ++ ConExecute q out :: post ->
  exists pre' p content,
    pre = pre' ++ [LlmInvoke p (inr content)]
    /\ q = Str.strip content
    /\ (forall c t, q = c :: t -> Str.isspace c = false)
    /\ (forall c t, q = t ++ [c] -> Str.isspace c = false).
Proof.
  intros Hrun Hlog.
  assert (Hshape : exists pre' p content,
             pre = pre' ++ [LlmInvoke p (inr content)]
             /\ q = Str.strip content).
  { destruct (cycle_inv _ _ _ _ _ _ _ _ Hrun)
      as [(e1 & w1 & _ & -> & _)|(content & w1 & log' & _ & -> & Hlr)].
    - destruct pre as [|? [|]]; simplify_eq/=.
    - destruct pre as [|ev pre]; simplify_eq/=.
      destruct (loop_run_provenance _ _ _ _ _ _ Hlr pre q out post eq_refl)
        as [[-> ->]|(pre' & p & c & -> & ->)].
      + now exists [], (sql_prompt_format question
                          (Str.join (py ", ") columns)), content.
      + now exists (LlmInvoke (sql_prompt_format question
                                (Str.join (py ", ") columns)) (inr content)
                    :: pre'), p, c. }
  destruct Hshape as (pre' & p & content & -> & ->).
  exists pre', p, content.
  destruct (strip_spec content) as (a & b & _ & _ & _ & Hhd & Htl).
  repeat split; assumption.
Qed.

(** X4: a cycle calls the model at least once and at most three times and
    executes at most three candidates; calls and executions alternate, a
    call first; and the cycle itself writes nothing to the page. *)
Theorem cycle_call_counts (columns : list str) (question : str)
    (s : @St World Conn) :
  let log := snd (cycle llm duckdb columns question s) in
  (1 <= length (llm_calls log) <= 3
   /\ length (exec_calls log) <= 3
   /\ length (exec_calls log) <= length (llm_calls log)
   /\ length (llm_calls log) <= length (exec_calls log) + 1)%nat
  /\ page log = [].
Proof.
  destruct (cycle llm duckdb columns question s) as [[r s'] log] eqn:Hrun.
  cbv zeta. cbn [snd].
  destruct (cycle_inv _ _ _ _ _ _ _ _ Hrun)
    as [(e1 & w1 & _ & -> & _)|(content & w1 & log' & _ & -> & Hlr)].
  - simpl. split; [lia | reflexivity].
  - pose proof (loop_run_counts _ _ _ _ _ _ Hlr ltac:(lia)) as (He & Hl & _).
    pose proof (loop_run_alternate _ _ _ _ _ _ Hlr) as [Ha Hb].
    pose proof (loop_run_page _ _ _ _ _ _ Hlr) as Hp.
    simpl. split; [lia | exact Hp].
Qed.

(** X5: a larger bound changes nothing in a call that returned: with any
    bound at least as large, [execute_with_retry] returns the same value,
    leaves the same state and has the same events. *)
Theorem larger_bound_same_success (columns : list str) (sql : str)
    (retries retries' : Z) (s : @St World Conn) v s' log :
  0 <= retries -> retries <= retries' ->
  execute_with_retry llm duckdb columns sql retries s = (inr v, s', log) ->
  execute_with_retry llm duckdb columns sql retries' s = (inr v, s', log).
Proof.
  intros Hr Hle Hrun. unfold execute_with_retry, range in *.
  replace (retries + 1) with (Z.of_nat (S (Z.to_nat retries))) in Hrun by lia.
  pose proof (retry_loop_mono columns retries (Z.to_nat (retries' - retries))
                (Z.to_nat retries) 0 sql s v s' log ltac:(lia) Hrun) as Hm.
  replace (retries + Z.of_nat (Z.to_nat (retries' - retries)))
    with retries' in Hm by lia.
  replace (retries' + 1)
    with (Z.of_nat (S (Z.to_nat retries + Z.to_nat (retries' - retries))))
    by lia.
  exact Hm.
Qed.

(** X6: the handler never raises, and its page is one of two: the error
    text of the exception the cycle raised, and nothing else; or the SQL and
    the rows the cycle returned, which are the candidate and the rows of the
    last execution, and no error. *)
Theorem handler_shows_error_or_result (columns : list str) (question : str)
    (s : @St World Conn) :
  let run := run_query llm duckdb columns question s in
  fst (fst run) = inr tt
  /\ ((exists e,
         fst (fst (cycle llm duckdb columns question s)) = inl e
         /\ page (snd run) = [StError (error_text e)])
      \/ (exists df q,
            fst (fst (cycle llm duckdb columns question s)) = inr (df, q)
            /\ last (exec_calls (snd run)) = Some (q, inr df)
            /\ page (snd run)
               = [StSubheader (129504%N :: py " Generated SQL");
                  StCode q;
                  StSubheader (128200%N :: py " Query Result");
                  StDataframe df])).
Proof.
  destruct (cycle llm duckdb columns question s) as [[rc sc] lc] eqn:Hc.
  cbv zeta. rewrite (run_query_eq _ _ _ _ _ _ _ _ Hc). cbn [fst snd].
  split; [reflexivity|].
  assert (Hp : page lc = []).
  { destruct (cycle_inv _ _ _ _ _ _ _ _ Hc)
      as [(e1 & w1 & _ & -> & _)|(content & w1 & log' & _ & -> & Hlr)];
      [reflexivity|].
    exact (loop_run_page _ _ _ _ _ _ Hlr). }
  destruct rc as [e|[df q]].
  - left. exists e. split; [reflexivity|].
    unfold page in *. now rewrite omap_app, Hp.
  - right. exists df, q. split; [reflexivity|]. split.
    + destruct (cycle_inv _ _ _ _ _ _ _ _ Hc)
        as [(e1 & w1 & _ & _ & ? & _)|(content & w1 & log' & _ & -> & Hlr)];
        [discriminate|].
      destruct (loop_run_returns _ _ _ _ _ _ Hlr)
        as (df' & q' & pre & Hv & -> & _).
      simplify_eq. unfold exec_calls. rewrite omap_app. simpl.
      rewrite omap_app. simpl. rewrite app_nil_r. apply last_snoc.
    + unfold page in *. now rewrite omap_app, Hp.
Qed.

(** ** The first steps of a cycle *)

Lemma sql_prompt_contains_question (q c : str) :
  Str.contains (sql_prompt_format q c) q.
Proof.
  unfold sql_prompt_format. do 3 apply contains_app_r. apply contains_here.
Qed.

(** The generation call, and then the execution of its stripped answer on
    the connection of the cycle. *)
Lemma cycle_first_execution (columns : list str) (question : str)
    (s : @St World Conn) content w :
  llm (sql_prompt_format question (Str.join (py ", ") columns)) (world s)
  = (inr content, w) ->
  exists rest,
    snd (cycle llm duckdb columns question s)
    = LlmInvoke (sql_prompt_format question (Str.join (py ", ") columns))
        (inr content)
      :: ConExecute (Str.strip content)
           (fst (fst (duckdb (Str.strip content) (con s) w)))
      :: rest.
Proof.
  intros Hllm. unfold cycle, generate_sql.
  unfold bind at 1 2. unfold llm_invoke. rewrite Hllm. cbn [ret].
  rewrite replace_nil_nil. unfold bind at 1.
  destruct (execute_with_retry _ _ _ _ _ _) as [[v s1] l1] eqn:Hloop.
  destruct (execute_with_retry_first _ _ 2 _ _ _ _ ltac:(lia) Hloop)
    as [rest ->].
  cbn [world con] in *.
  destruct v as [e|v]; [now exists rest|].
  destruct (unpack_pair v s1) as [[r2 s2] l2]. cbn [snd].
  now exists (rest ++ l2).
Qed.

(** ** The script as a whole *)

Lemma cycle_stmts (columns : list str) (question : str)
    (s : @St World Conn) r s' log :
  cycle llm duckdb columns question s = (r, s', log) ->
  stmt_calls log = [] /\ llm_calls log <> [].
Proof.
  intros Hc.
  destruct (cycle_inv _ _ _ _ _ _ _ _ Hc)
    as [(e1 & w1 & _ & -> & _)|(content & w1 & log' & _ & -> & Hlr)].
  - now split.
  - split; [|discriminate]. simpl. exact (loop_run_stmts _ _ _ _ _ _ Hlr).
Qed.


(** X8: a run of the script calls the model only if a file is uploaded and
    read, the button is pressed and the question is not empty; it executes a
    candidate only if it has called the model; and the one statement it
    executes otherwise is the [CREATE OR REPLACE TABLE] of line 40, at most
    once. *)
Theorem script_calls_only_when_asked (up : option File) (button : bool)
    (question : str) (w : World) :
  let log := snd (script dotenv groq read_csv db_connect db_register
                    db_execute llm duckdb repr_list up button question w) in
  (llm_calls log <> [] ->
   exists f df,
     up = Some f /\ read_csv f = inr df /\ button = true /\ question <> [])
  /\ (exec_calls log <> [] -> llm_calls log <> [])
  /\ (stmt_calls log = []
      \/ exists o,
           stmt_calls log
           = [(py "CREATE OR REPLACE TABLE data AS SELECT * FROM df", o)]).
Proof.
  destruct (script dotenv groq read_csv db_connect db_register db_execute
              llm duckdb repr_list up button question w)
    as [[r w'] log] eqn:Hrun.
  cbv zeta. cbn [snd].
  destruct (script_cases _ _ _ _ _ _ _ _ _ _ _ _ _ _ _ _ Hrun)
    as (setup & Hl & He & Hs
        & [[-> _]
          |(f & df & s2 & rc & sc & lc & -> & Hf & Hg & Hc & _ & _ & ->)]).
  { rewrite Hl, He. split; [done|]. split; [done | exact Hs]. }
  destruct (cycle_stmts _ _ _ _ _ _ Hc) as [Hsc Hlc].
  assert (Hll : llm_calls
                  (setup ++ lc
                   ++ match rc with
                      | inl e => [StError (error_text e)]
                      | inr p =>
                          [StSubheader (129504%N :: py " Generated SQL");
                           StCode (snd p);
                           StSubheader (128200%N :: py " Query Result");
                           StDataframe (fst p)]
                      end) <> []).
  { unfold llm_calls in *. rewrite !omap_app, Hl. simpl.
    intros Hnil. apply app_eq_nil in Hnil as [Hnil _]. contradiction. }
  split; [|split; [done|]].
  - intros _. exists f, df. split; [reflexivity|]. split; [exact Hf|].
    apply andb_true_iff in Hg as [-> Hq].
    apply negb_true_iff, bool_decide_eq_false in Hq. done.
  - assert (Hst : stmt_calls
                    (setup ++ lc
                     ++ match rc with
                        | inl e => [StError (error_text e)]
                        | inr p =>
                            [StSubheader (129504%N :: py " Generated SQL");
                             StCode (snd p);
                             StSubheader (128200%N :: py " Query Result");
                             StDataframe (fst p)]
                        end) = stmt_calls setup).
    { unfold stmt_calls in *. rewrite !omap_app, Hsc.
      destruct rc; simpl; now rewrite app_nil_r. }
    rewrite Hst. exact Hs.
Qed.

(** X9: when everything on the way to the query block has succeeded and
    the model answers the generation prompt, the first candidate is
    executed on the connection of this run: the one [duckdb.connect()] has
    opened, after [con.register] of the data frame read in this run and
    the table-creating [con.execute] on it, in the world the generation
    call has left. Before that the run has executed that one statement and
    called no model. *)
Theorem candidate_runs_on_run_connection (f : File) (df : @DataFrame Value)
    (question : str) (w w1 w2 w3 w4 w5 : World) (c0 c1 c2 : Conn)
    (content : str) :
  groq (py "llama-3.1-8b-instant") 0 (dotenv w) = (inr tt, w1) ->
  read_csv f = inr df ->
  db_connect w1 = (inr c0, w2) ->
  db_register (py "df") df c0 w2 = (inr tt, c1, w3) ->
  db_execute (py "CREATE OR REPLACE TABLE data AS SELECT * FROM df") c1 w3
  = (inr tt, c2, w4) ->
  question <> [] ->
  llm (sql_prompt_format question (Str.join (py ", ") (df_columns df))) w4
  = (inr content, w5) ->
  exists setup rest,
    llm_calls setup = [] /\ exec_calls setup = []
    /\ stmt_calls setup
       = [(py "CREATE OR REPLACE TABLE data AS SELECT * FROM df", inr tt)]
    /\ snd (script dotenv groq read_csv db_connect db_register db_execute
              llm duckdb repr_list (Some f) true question w)
       = setup
         ++ LlmInvoke (sql_prompt_format question
                         (Str.join (py ", ") (df_columns df))) (inr content)
         :: ConExecute (Str.strip content)
              (fst (fst (duckdb (Str.strip content) c2 w5)))
         :: rest.
Proof.
  intros Hg Hf Hc0 Hc1 Hc2 Hq Hllm.
  destruct (script dotenv groq read_csv db_connect db_register db_execute
              llm duckdb repr_list (Some f) true question w)
    as [[r w'] log] eqn:H.
  unfold script in H.
  unfold bind, load_dotenv, emit, chat_groq, lift, duckdb_connect, with_con,
    con_register, con_execute, ret in H.
  cbn [world con] in H. rewrite Hg, Hf, Hc0 in H.
  cbn [world con] in H. rewrite Hc1 in H.
  cbn [world con] in H. rewrite Hc2 in H.
  cbn [world con] in H. rewrite bool_decide_eq_false_2 in H by exact Hq.
  cbn [andb negb] in H.
  destruct (cycle llm duckdb (df_columns df) question
              {| world := w4; con := c2 |}) as [[rc sc] lc] eqn:Hc.
  rewrite (run_query_eq _ _ _ _ _ _ _ _ Hc) in H. simpl in H.
  destruct (cycle_first_execution (df_columns df) question
              {| world := w4; con := c2 |} content w5 Hllm) as [rest Hlc].
  rewrite Hc in Hlc. cbn [snd world con] in Hlc. subst lc.
  simplify_eq. cbn [snd].
  eexists [_; _; _; _; _; _; _; _; _; _; _; _; _], _.
  split; [|split; [|split]]. 4: reflexivity.
  all: reflexivity.
Qed.

(** X10: the first event of a cycle is a call of the model whose prompt
    contains the question as it was typed; and every prompt of the cycle,
    generation or fix, contains every column name. *)
Theorem cycle_prompts_contents (columns : list str) (question : str)
    (s : @St World Conn) :
  let log := snd (cycle llm duckdb columns question s) in
  (exists p out rest,
     log = LlmInvoke p out :: rest /\ Str.contains p question)
  /\ forall p out c,
       In (LlmInvoke p out) log -> In c columns -> Str.contains p c.
Proof.
  destruct (cycle llm duckdb columns question s) as [[r s'] log] eqn:Hrun.
  cbv zeta. cbn [snd].
  assert (Hgen : forall c, In c columns ->
            Str.contains
              (sql_prompt_format question (Str.join (py ", ") columns)) c).
  { intros c Hc. eapply contains_trans;
      [apply sql_prompt_contains | now apply join_contains]. }
  destruct (cycle_inv _ _ _ _ _ _ _ _ Hrun)
    as [(e1 & w1 & _ & -> & _)|(content & w1 & log' & _ & -> & Hlr)].
  - split.
    + eexists _, _, _. split; [reflexivity|].
      apply sql_prompt_contains_question.
    + intros p out c [[= <- <-]|[]] Hc. now apply Hgen.
  - split.
    + eexists _, _, _. split; [reflexivity|].
      apply sql_prompt_contains_question.
    + intros p out c [[= <- <-]|Hin] Hc; [now apply Hgen|].
      destruct (loop_run_prompts _ _ _ _ _ _ Hlr p out Hin) as (q & e & ->).
      eapply contains_trans; [apply fix_prompt_contains|].
      now apply join_contains.
Qed.

(** X11: there is no guard on the candidate: when the model answers the
    generation prompt with whitespace only, the candidate is the empty
    string, and the cycle executes it all the same. *)
Theorem blank_answer_is_executed (columns : list str) (question : str)
    (s : @St World Conn) content w :
  llm (sql_prompt_format question (Str.join (py ", ") columns)) (world s)
  = (inr content, w) ->
  forallb Str.isspace content = true ->
  exists rest,
    snd (cycle llm duckdb columns question s)
    = LlmInvoke (sql_prompt_format question (Str.join (py ", ") columns))
        (inr content)
      :: ConExecute [] (fst (fst (duckdb [] (con s) w)))
      :: rest.
Proof.
  intros Hllm Hsp.
  destruct (cycle_first_execution columns question s content w Hllm)
    as [rest Hlog].
  rewrite (strip_all_space content Hsp) in Hlog. now exists rest.
Qed.

(** The outcome of a run of the loop is that of its last event. *)
Lemma loop_run_last (columns : list str) (retries attempt : Z) (sql : str)
    (log : list (@Event Value)) r :
  loop_run columns retries attempt sql log r ->
  (exists q df, last log = Some (ConExecute q (inr df))
                /\ r = inr (Some (df, q)))
  \/ (exists q e, last log = Some (ConExecute q (inl e)) /\ r = inl e)
  \/ (exists p e, last log = Some (LlmInvoke p (inl e)) /\ r = inl e).
Proof.
  induction 1 as [a0 q0 d0|q0 x0|a0 q0 x0 x1 Hne
                  |attempt sql e0 content log r Hne Hrun IH].
  - left. now exists q0, d0.
  - right. left. now exists q0, x0.
  - right. right. now eexists _, x1.
  - destruct log as [|ev log]; [now apply loop_run_nonempty in Hrun|].
    exact IH.
Qed.

(** X12: the outcome of a cycle is that of its last event, which is a call:
    the cycle returns the rows and the candidate of a last, successful
    execution; or raises the exception of a last, failed execution, which is
    then the third; or raises the exception of a last call of the model. In
    particular the unpacking on line 132 never fails. *)
Theorem cycle_outcome_is_last_event (columns : list str) (question : str)
    (s : @St World Conn) :
  let run := cycle llm duckdb columns question s in
  (exists q df,
     last (snd run) = Some (ConExecute q (inr df))
     /\ fst (fst run) = inr (df, q))
  \/ (exists q e,
        last (snd run) = Some (ConExecute q (inl e))
        /\ fst (fst run) = inl e
        /\ length (exec_calls (snd run)) = 3%nat)
  \/ (exists p e,
        last (snd run) = Some (LlmInvoke p (inl e))
        /\ fst (fst run) = inl e).
Proof.
  destruct (cycle llm duckdb columns question s) as [[r s'] log] eqn:Hrun.
  cbv zeta. cbn [fst snd].
  destruct (cycle_inv _ _ _ _ _ _ _ _ Hrun)
    as [(e1 & w1 & _ & -> & -> & _)|(content & w1 & log' & _ & -> & Hlr)].
  - right. right. now eexists _, e1.
  - assert (Hlast : last (LlmInvoke
                            (sql_prompt_format question
                               (Str.join (py ", ") columns)) (inr content)
                          :: log') = last log').
    { destruct log'; [now apply loop_run_nonempty in Hlr | reflexivity]. }
    rewrite Hlast.
    destruct (loop_run_last _ _ _ _ _ _ Hlr)
      as [(q & df & Hl & Hr)|[(q & e & Hl & Hr)|(p & e & Hl & Hr)]].
    + left. exists q, df. split; [exact Hl|]. destruct r; simplify_eq. done.
    + right. left. exists q, e. split; [exact Hl|].
      destruct (loop_run_gave_up _ _ _ _ _ _ Hlr ltac:(lia) q e Hl)
        as (_ & Hex & _).
      split; [destruct r; simplify_eq; done|]. simpl. lia.
    + right. right. exists p, e. split; [exact Hl|].
      destruct r; simplify_eq. done.
Qed.

End Script.

(** ** The further properties at work in the scripted world *)

(** No attempt at all with [retries = -1]. *)
Lemma negative_bound_returns_none_witness :
  let s := Mock.start Mock.fixed_once in
  execute_with_retry Mock.llm Mock.duckdb Mock.columns Mock.q_bad (-1) s
  = (inr None, s, [])
  /\ bind (execute_with_retry Mock.llm Mock.duckdb Mock.columns Mock.q_bad
             (-1)) unpack_pair s
     = (inl {| exc_class := py "TypeError";
               exc_str := py "cannot unpack non-iterable NoneType object" |},
        s, []).
Proof.
  intros s.
  apply (negative_bound_returns_none Mock.llm Mock.duckdb Mock.columns
           Mock.q_bad (-1) s).
  lia.
Defined.

(** Three rejected candidates: three executions, two calls of the model. *)
Lemma gives_up_only_at_bound_witness :
  let run := execute_with_retry Mock.llm Mock.duckdb Mock.columns Mock.q_bad 2
               (Mock.start (Mock.never_fixed Mock.q_bad Mock.q_other)) in
  last (snd run) = Some (ConExecute Mock.q_other (inl Mock.conversion_error))
  /\ fst (fst run) = inl Mock.conversion_error
  /\ Z.of_nat (length (exec_calls (snd run))) = 2 + 1
  /\ Z.of_nat (length (llm_calls (snd run))) = 2
  /\ forall c, In c (exec_calls (snd run)) -> exists e', snd c = inl e'.
Proof.
  intros run.
  assert (Hlast : last (snd run)
                  = Some (ConExecute Mock.q_other
                            (inl Mock.conversion_error)))
    by (vm_compute; reflexivity).
  split; [exact Hlast|].
  apply (gives_up_only_at_bound Mock.llm Mock.duckdb Mock.columns Mock.q_bad
           2 (Mock.start (Mock.never_fixed Mock.q_bad Mock.q_other))
           (fst (fst run)) (snd (fst run)) (snd run)
           Mock.q_other Mock.conversion_error);
    [lia | reflexivity | exact Hlast].
Defined.

(** The corrected candidate executed last is the stripped answer to the
    fix prompt. *)
Lemma cycle_executes_model_answers_witness :
  let w := Mock.asked (inr Mock.q_bad) Mock.fixed_once in
  let run := cycle Mock.llm Mock.duckdb Mock.columns Mock.question
               (Mock.start w) in
  snd run = firstn 3 (snd run) ++ ConExecute Mock.q_good (inr Mock.totals)
                                  :: []
  /\ exists pre' p content,
       firstn 3 (snd run) = pre' ++ [LlmInvoke p (inr content)]
       /\ Mock.q_good = Str.strip content
       /\ (forall c t, Mock.q_good = c :: t -> Str.isspace c = false)
       /\ (forall c t, Mock.q_good = t ++ [c] -> Str.isspace c = false).
Proof.
  intros w run.
  assert (Hlog : snd run = firstn 3 (snd run)
                           ++ ConExecute Mock.q_good (inr Mock.totals) :: [])
    by (vm_compute; reflexivity).
  split; [exact Hlog|].
  apply (cycle_executes_model_answers Mock.llm Mock.duckdb Mock.columns
           Mock.question (Mock.start w)
           (fst (fst run)) (snd (fst run)) (snd run)
           (firstn 3 (snd run)) Mock.q_good (inr Mock.totals) []
           eq_refl Hlog).
Defined.

(** A call that returns with one retry returns the same with four. *)
Lemma larger_bound_same_success_witness :
  let s := Mock.start Mock.fixed_once in
  let run := execute_with_retry Mock.llm Mock.duckdb Mock.columns Mock.q_bad 1
               s in
  fst (fst run) = inr (Some (Mock.totals, Mock.q_good))
  /\ execute_with_retry Mock.llm Mock.duckdb Mock.columns Mock.q_bad 4 s
     = (inr (Some (Mock.totals, Mock.q_good)), snd (fst run), snd run).
Proof.
  intros s run.
  split; [vm_compute; reflexivity|].
  apply (larger_bound_same_success Mock.llm Mock.duckdb Mock.columns
           Mock.q_bad 1 4 s (Some (Mock.totals, Mock.q_good))
           (snd (fst run)) (snd run));
    [lia | lia | vm_compute; reflexivity].
Defined.


(** A run that has called the model: a file, the button and a question. *)
Lemma script_calls_only_when_asked_witness :
  exists f df,
    Some Mock.sales = Some f /\ Mock.read_csv f = inr df
    /\ true = true /\ Mock.question <> [].
Proof.
  apply (proj1 (script_calls_only_when_asked Mock.dotenv Mock.groq
                  Mock.read_csv Mock.db_connect Mock.db_register
                  Mock.db_execute Mock.llm Mock.duckdb Mock.repr_list
                  (Some Mock.sales) true Mock.question Mock.fixed_once)).
  vm_compute. discriminate.
Defined.

(** The candidate meets the connection on which this run's file was
    registered. *)
Lemma candidate_runs_on_run_connection_witness :
  let w : Mock.World := ([inr (py " " ++ Mock.q_good)], [inr Mock.totals]) in
  let c : Mock.Conn := <[py "df" := Mock.sales]> ∅ in
  exists setup rest,
    llm_calls setup = [] /\ exec_calls setup = []
    /\ stmt_calls setup
       = [(py "CREATE OR REPLACE TABLE data AS SELECT * FROM df", inr tt)]
    /\ snd (script Mock.dotenv Mock.groq Mock.read_csv Mock.db_connect
              Mock.db_register Mock.db_execute Mock.llm Mock.duckdb
              Mock.repr_list (Some Mock.sales) true Mock.question w)
       = setup
         ++ LlmInvoke (sql_prompt_format Mock.question
                         (Str.join (py ", ") (df_columns Mock.sales)))
              (inr (py " " ++ Mock.q_good))
         :: ConExecute (Str.strip (py " " ++ Mock.q_good))
              (fst (fst (Mock.duckdb (Str.strip (py " " ++ Mock.q_good)) c
                           ([], [inr Mock.totals]))))
         :: rest.
Proof.
  intros w c.
  apply (candidate_runs_on_run_connection Mock.dotenv Mock.groq Mock.read_csv
           Mock.db_connect Mock.db_register Mock.db_execute Mock.llm
           Mock.duckdb Mock.repr_list Mock.sales Mock.sales Mock.question
           w w w w w ([], [inr Mock.totals]) ∅ c c (py " " ++ Mock.q_good));
    [reflexivity | reflexivity | reflexivity | reflexivity | reflexivity
    | vm_compute; discriminate | reflexivity].
Defined.

(** The generation prompt names the column [sales]. *)
Lemma cycle_prompts_contents_witness :
  let w : Mock.World := ([inr Mock.q_good], [inr Mock.totals]) in
  Str.contains
    (sql_prompt_format Mock.question (Str.join (py ", ") Mock.columns))
    (py "sales").
Proof.
  intros w.
  apply (proj2 (cycle_prompts_contents Mock.llm Mock.duckdb Mock.columns
                  Mock.question (Mock.start w))
           (sql_prompt_format Mock.question (Str.join (py ", ") Mock.columns))
           (inr Mock.q_good) (py "sales")).
  - left. vm_compute. reflexivity.
  - right. left. reflexivity.
Defined.

(** An answer of two blanks and a newline: the empty candidate is executed. *)
Lemma blank_answer_is_executed_witness :
  let w : Mock.World := ([inr [32; 32; 10]%N], [inl Mock.timeout]) in
  exists rest,
    snd (cycle Mock.llm Mock.duckdb Mock.columns Mock.question (Mock.start w))
    = LlmInvoke (sql_prompt_format Mock.question
                   (Str.join (py ", ") Mock.columns)) (inr [32; 32; 10]%N)
      :: ConExecute []
           (fst (fst (Mock.duckdb [] (con (Mock.start w))
                        ([], [inl Mock.timeout]))))
      :: rest.
Proof.
  intros w.
  apply (blank_answer_is_executed Mock.llm Mock.duckdb Mock.columns
           Mock.question (Mock.start w) [32; 32; 10]%N
           ([], [inl Mock.timeout]));
    reflexivity.
Defined.
